(** * Simple linear regression: [calculateRegression] and [predictPrice]

    A shallow embedding of the regression module ([lib/regression]) and of
    its types ([types]) of the house-price application.

    The TypeScript code computes on JavaScript [number]s, i.e. IEEE 754
    binary64 values.  The two functions are translated once, over an
    interface [Number] that lists exactly the operations the source uses
    ([+ - * /], [===], [Math.pow(_, 2)], [Math.sqrt], [toFixed] and the
    conversion of [data.length]), and instantiated at [Float64]: Rocq's
    primitive binary64 floats, the arithmetic the program runs on.  What is
    proved over the interface holds for the program; what depends on
    rounding is proved about binary64 itself.

    [Number.prototype.toFixed] and the part of [Number::toString] it relies
    on follow the steps of ECMA-262.

    The page ([app/page]) that calls the two functions is embedded as well:
    its parsing and validation of the form fields, the state of the
    component with its handlers and the effect that resets the model, and
    the series it derives for the chart.  Texts of input fields are
    sequences of UTF-16 code units; [Number(text)] and [String(number)] are
    left to the host and are parameters of the handlers. *)

From Stdlib Require Import ZArith List String Ascii Bool Lia.
From Stdlib Require Import Floats.
From Stdlib Require Import Reals Lra Psatz.
From Stdlib Require Import Permutation.
Import ListNotations.

#[local] Set Warnings "-inexact-float".
#[local] Open Scope string_scope.

(** ** Completions: a call either returns normally or throws *)

Module Js.

(** The exceptions that can reach the functions modelled here: the
    [new Error(msg)] thrown by the code itself, and the [RangeError] of
    [Number.prototype.toFixed] for a digit count outside [0..100]. *)
Inductive Exception : Type :=
| Error (message : string)
| RangeError.

Inductive Completion (A : Type) : Type :=
| Return (a : A)
| Throw (e : Exception).
Arguments Return {A} a.
Arguments Throw {A} e.

Definition bind {A B : Type} (c : Completion A) (k : A -> Completion B) : Completion B :=
  match c with
  | Return a => k a
  | Throw e => Throw e
  end.

End Js.
Import Js.

Notation "x <- c ;; k" := (Js.bind c (fun x => k))
  (at level 61, c at next level, right associativity).

(** ** The arithmetic interface *)

(** The operations of a JavaScript [number] that the regression code uses.
    [toFixedDigits x f] is the text of [x.toFixed(f)] for an admissible digit
    count [f]; the admissibility check itself does not look at the number and
    is written once, in [toFixed] below. *)
Class Number (num : Type) : Type := {
  zero : num;                       (* the literal 0 *)
  one : num;                        (* the literal 1 *)
  add : num -> num -> num;
  sub : num -> num -> num;
  mul : num -> num -> num;
  div : num -> num -> num;
  strictEq : num -> num -> bool;    (* === *)
  pow2 : num -> num;                (* Math.pow(_, 2) *)
  sqrt : num -> num;                (* Math.sqrt *)
  ofLength : nat -> num;            (* the number that an array length is *)
  toFixedDigits : num -> nat -> string
}.

Declare Scope num_scope.
Delimit Scope num_scope with num.
Infix "+" := add : num_scope.
Infix "-" := sub : num_scope.
Infix "*" := mul : num_scope.
Infix "/" := div : num_scope.
Infix "===" := strictEq (at level 70, no associativity) : num_scope.

(** [Number.prototype.toFixed(fractionDigits)]: a [RangeError] unless
    [0 <= fractionDigits <= 100] (the count is a [nat] here), then the
    rendering of the number. *)
Definition toFixed {num : Type} `{Number num} (x : num) (fractionDigits : nat)
  : Completion string :=
  if (100 <? fractionDigits)%nat then Throw RangeError
  else Return (toFixedDigits x fractionDigits).

(** ** The data model ([types]) *)

Section Types.
Context {num : Type}.

Record DataPoint : Type := {
  id : string;
  area : num;
  price : num
}.

Record RegressionResult : Type := {
  m : num;
  b : num;
  r2 : num;
  rmse : num;
  equation : string
}.
End Types.
Arguments DataPoint num : clear implicits.
Arguments RegressionResult num : clear implicits.

(** ** The regression code ([lib/regression]) *)

Section Regression.
Context {num : Type} `{Number num}.
#[local] Open Scope num_scope.

(** The four accumulators of the first [forEach]. *)
Record Sums : Type := {
  sumX : num;
  sumY : num;
  sumXY : num;
  sumXX : num
}.

Definition sums0 : Sums :=
  {| sumX := zero; sumY := zero; sumXY := zero; sumXX := zero |}.

Definition addPoint (s : Sums) (p : DataPoint num) : Sums :=
  {| sumX := sumX s + area p;
     sumY := sumY s + price p;
     sumXY := sumXY s + area p * price p;
     sumXX := sumXX s + area p * area p |}.

(** [data.forEach(...)] visits the elements in index order. *)
Definition accumulate (data : list (DataPoint num)) : Sums :=
  fold_left addPoint data sums0.

(** The two accumulators of the second [forEach]. *)
Record Squares : Type := {
  ssTot : num;
  ssRes : num
}.

Definition squares0 : Squares := {| ssTot := zero; ssRes := zero |}.

Definition addSquares (m b meanY : num) (q : Squares) (p : DataPoint num) : Squares :=
  let predictedY := m * area p + b in
  {| ssTot := ssTot q + pow2 (price p - meanY);
     ssRes := ssRes q + pow2 (price p - predictedY) |}.

Definition accumulateSquares (m b meanY : num) (data : list (DataPoint num)) : Squares :=
  fold_left (addSquares m b meanY) data squares0.

Definition verticalLine : RegressionResult num :=
  {| m := zero; b := zero; r2 := zero; rmse := zero;
     equation := "Undefined (Vertical Line)" |}.

Definition calculateRegression (data : list (DataPoint num))
  : Completion (RegressionResult num) :=
  let len := List.length data in
  if (len <? 2)%nat then Throw (Error "Insufficient data points")
  else
    let n := ofLength len in
    let s := accumulate data in
    let denominator := n * sumXX s - sumX s * sumX s in
    if denominator === zero then Return verticalLine
    else
      let m := (n * sumXY s - sumX s * sumY s) / denominator in
      let b := (sumY s - m * sumX s) / n in
      let meanY := sumY s / n in
      let q := accumulateSquares m b meanY data in
      let r2 := if ssTot q === zero then zero else one - ssRes q / ssTot q in
      let rmse := sqrt (ssRes q / n) in
      slopeText <- toFixed m 4 ;;
      interceptText <- toFixed b 2 ;;
      Return {| m := m; b := b; r2 := r2; rmse := rmse;
                equation := "y = " ++ slopeText ++ "x + " ++ interceptText |}.

Definition predictPrice (area m b : num) : num := m * area + b.

End Regression.

(** ** Binary64: the arithmetic of JavaScript numbers *)

Module Float64.

(** [data.length] is an integer below [2^32]; its conversion is exact. *)
Definition fromLength (n : nat) : float :=
  PrimFloat.of_uint63 (Uint63.of_Z (Z.of_nat n)).

(** *** Decimal text *)

Definition digitChar (d : Z) : ascii := ascii_of_nat (48 + Z.to_nat d).

Fixpoint decimalAux (fuel : nat) (v : Z) (acc : string) : string :=
  match fuel with
  | O => acc
  | S fuel' =>
      let acc' := String (digitChar (v mod 10)) acc in
      if (v / 10 =? 0)%Z then acc' else decimalAux fuel' (v / 10) acc'
  end.

(** The decimal representation of a natural number, without leading zeros
    (["0"] for zero).  A number has no more decimal than binary digits. *)
Definition decimal (v : Z) : string :=
  decimalAux (S (Z.to_nat (Z.log2 v))) v "".

Fixpoint zeros (k : nat) : string :=
  match k with
  | O => ""
  | S k' => String "0" (zeros k')
  end.

(** *** [Number.prototype.toFixed], steps 6 to 12 of ECMA-262 *)

(** Step 11.a: the integer [n] for which [n / 10^f - x] is as close to zero
    as possible, the larger one of two, for [x = mant * 2^e]. *)
Definition nearestScaled (mant : positive) (e : Z) (f : nat) : Z :=
  let num := (Z.pos mant * 10 ^ Z.of_nat f * 2 ^ Z.max e 0)%Z in
  let den := (2 ^ Z.max (- e) 0)%Z in
  ((2 * num + den) / (2 * den))%Z.

(** The first [k] characters of a string, and the others. *)
Fixpoint firstChars (k : nat) (s : string) : string :=
  match k, s with
  | S k', String c rest => String c (firstChars k' rest)
  | _, _ => ""
  end.

Fixpoint otherChars (k : nat) (s : string) : string :=
  match k, s with
  | S k', String _ rest => otherChars k' rest
  | _, _ => s
  end.

(** Steps 11.b and 11.c: the digits of [n] with a point before the last
    [f] of them, padded with zeros so that a digit precedes the point. *)
Definition fixedText (n : Z) (f : nat) : string :=
  let m := decimal n in
  if (f =? 0)%nat then m
  else
    let k := String.length m in
    let m := if (k <=? f)%nat then zeros (f + 1 - k) ++ m else m in
    let k := String.length m in
    firstChars (k - f) m ++ "." ++ otherChars (k - f) m.

(** *** [Number::toString] for the values [toFixed] hands over to it *)

(** The number of decimal digits of a positive integer. *)
Definition decimalLength (v : Z) : nat := String.length (decimal v).

(** The binary64 value of an integer (round to nearest, ties to even). *)
Definition ofInteger (v : Z) : float :=
  SF2Prim (binary_normalize prec emax v 0 false).

(** Step 5 of [Number::toString], in the form of its Note 2: the shortest
    digit string [s] (of [k] digits) and the exponent [n] with
    [ofInteger (s * 10^(n-k)) = x], the closest to [x] among the shortest,
    the even one of two.  [X] is the integer value of [x], [nd] its number
    of decimal digits.  At a scale [10^(nd-k)] only the two multiples next
    to [X] can be the closest. *)
Fixpoint shortestFrom (x : float) (X : Z) (nd : nat) (k : nat) (fuel : nat)
  : Z * nat :=
  match fuel with
  | O => (X, nd)
  | S fuel' =>
      let scale := (10 ^ Z.of_nat (nd - k))%Z in
      let lo := (X / scale)%Z in
      let hi := (lo + 1)%Z in
      let okLo := PrimFloat.eqb (ofInteger (lo * scale)) x in
      let okHi := PrimFloat.eqb (ofInteger (hi * scale)) x in
      let dLo := (X - lo * scale)%Z in
      let dHi := (hi * scale - X)%Z in
      let useLo := okLo && (negb okHi || (dLo <? dHi)%Z
                            || ((dLo =? dHi)%Z && Z.even lo)) in
      if useLo then (lo, nd)
      else if okHi then
        if (hi =? 10 ^ Z.of_nat k)%Z then ((10 ^ Z.of_nat (k - 1))%Z, S nd)
        else (hi, nd)
      else shortestFrom x X nd (S k) fuel'
  end.

(** Steps 9 to 11 of [Number::toString]: scientific notation.  For
    [x >= 10^21] the exponent [n] exceeds 21, so the plain notations of
    step 6 do not apply. *)
Definition exponentText (x : float) (X : Z) : string :=
  let '(s, n) := shortestFrom x X (decimalLength X) 1 17 in
  let digits := decimal s in
  let exponent := decimal (Z.of_nat (n - 1)) in
  match digits with
  | String d "" => String d "" ++ "e+" ++ exponent
  | String d rest => String d "" ++ "." ++ rest ++ "e+" ++ exponent
  | "" => ""
  end.

(** The text of [x.toFixed(f)] for [0 <= f <= 100].  Step 6: a number that
    is not finite is rendered by [Number::toString].  Steps 7 to 9: the sign
    is that of the real value, so [-0] has none.  Step 10: from [10^21] on
    the text is that of [Number::toString]; a value [mant * 2^e] with a
    negative exponent is below [2^53] and never gets there.  Step 11
    otherwise. *)
Definition toFixedText (x : float) (f : nat) : string :=
  match Prim2SF x with
  | S754_nan => "NaN"
  | S754_infinity false => "Infinity"
  | S754_infinity true => "-Infinity"
  | S754_zero _ => fixedText 0 f
  | S754_finite negative mant e =>
      let s := if negative then "-" else "" in
      if (0 <=? e)%Z && (10 ^ 21 <=? Z.pos mant * 2 ^ e)%Z
      then s ++ exponentText (PrimFloat.abs x) (Z.pos mant * 2 ^ e)
      else s ++ fixedText (nearestScaled mant e f) f
  end.

(** The instance.  The four operations, [===] and [Math.sqrt] are those of
    IEEE 754, as ECMA-262 requires.  [Math.pow] is only required to
    approximate; [Math.pow(v, 2)] is taken to be the correctly rounded square
    [v * v]. *)
#[global] Instance number : Number float := {|
  zero := 0%float;
  one := 1%float;
  add := PrimFloat.add;
  sub := PrimFloat.sub;
  mul := PrimFloat.mul;
  div := PrimFloat.div;
  strictEq := PrimFloat.eqb;
  pow2 := fun v => PrimFloat.mul v v;
  sqrt := PrimFloat.sqrt;
  ofLength := fromLength;
  toFixedDigits := toFixedText
|}.

Definition point (x y : float) : DataPoint float :=
  {| id := ""; area := x; price := y |}.

End Float64.

(** ** The closed form, as the specification words it *)

Section ClosedForm.
Context {num : Type} `{Number num}.
#[local] Open Scope num_scope.

(** A running sum over the observations, in input order, from 0. *)
Definition total (f : DataPoint num -> num) (data : list (DataPoint num)) : num :=
  fold_left (fun acc p => acc + f p) data zero.

Definition count (data : list (DataPoint num)) : num := ofLength (List.length data).

Definition olsDenominator (data : list (DataPoint num)) : num :=
  count data * total (fun p => area p * area p) data
  - total area data * total area data.

Definition olsSlope (data : list (DataPoint num)) : num :=
  (count data * total (fun p => area p * price p) data
   - total area data * total price data) / olsDenominator data.

Definition olsIntercept (data : list (DataPoint num)) : num :=
  (total price data - olsSlope data * total area data) / count data.

Definition meanPrice (data : list (DataPoint num)) : num :=
  total price data / count data.

(** [ssTot] and [ssRes] of the fitted line. *)
Definition totalSquares (data : list (DataPoint num)) : num :=
  total (fun p => pow2 (price p - meanPrice data)) data.

Definition residualSquares (data : list (DataPoint num)) : num :=
  total (fun p => pow2 (price p - (olsSlope data * area p + olsIntercept data))) data.

Definition olsR2 (data : list (DataPoint num)) : num :=
  if totalSquares data === zero then zero
  else one - residualSquares data / totalSquares data.

Definition olsRmse (data : list (DataPoint num)) : num :=
  sqrt (residualSquares data / count data).

(** The result of the ordinary path, field by field, with the equation
    text in the pattern [y = {slope}x + {intercept}]. *)
Definition olsResult (data : list (DataPoint num)) : RegressionResult num :=
  {| m := olsSlope data;
     b := olsIntercept data;
     r2 := olsR2 data;
     rmse := olsRmse data;
     equation := "y = " ++ toFixedDigits (olsSlope data) 4
                 ++ "x + " ++ toFixedDigits (olsIntercept data) 2 |}.

(** All observations have the same [area]. *)
Definition sameArea (data : list (DataPoint num)) : Prop :=
  forall p q, In p data -> In q data -> area p = area q.

(** All observations have the same [price]. *)
Definition samePrice (data : list (DataPoint num)) : Prop :=
  forall p q, In p data -> In q data -> price p = price q.

(** Two inputs that agree on area and price, observation by observation. *)
Definition sameObservations (data data' : list (DataPoint num)) : Prop :=
  Forall2 (fun p q => area p = area q /\ price p = price q) data data'.

End ClosedForm.

(** ** Shapes of rendered numbers *)

Definition isDigit (c : ascii) : bool :=
  (48 <=? nat_of_ascii c)%nat && (nat_of_ascii c <=? 57)%nat.

Fixpoint allDigits (s : string) : bool :=
  match s with
  | EmptyString => true
  | String c rest => isDigit c && allDigits rest
  end.

(** The integer that a string of digits denotes. *)
Fixpoint digitsValueFrom (acc : Z) (s : string) : Z :=
  match s with
  | EmptyString => acc
  | String c rest => digitsValueFrom (10 * acc + (Z.of_nat (nat_of_ascii c) - 48)) rest
  end.

Definition digitsValue (s : string) : Z := digitsValueFrom 0 s.

(** A binary64 value that is finite and below [10^21] in magnitude: the
    values [toFixed] renders in fixed-point notation. *)
Definition fixedRange (x : float) : bool :=
  match Prim2SF x with
  | S754_zero _ => true
  | S754_finite _ mant e => negb ((0 <=? e)%Z && (10 ^ 21 <=? Z.pos mant * 2 ^ e)%Z)
  | _ => false
  end.

(** The real number that a finite binary64 value stands for. *)
Definition realValue (x : float) : R :=
  match Prim2SF x with
  | S754_finite negative mant e =>
      ((if negative then -1 else 1) * IZR (Z.pos mant) * powerRZ 2 e)%R
  | _ => 0%R
  end.

(** [s] is [x] in fixed-point notation with exactly [f] decimal places: a
    minus sign when [x] is negative, at least one digit, a point and [f]
    digits, which together denote a multiple of [10^-f] closest to [|x|]. *)
Definition rendersFixed (f : nat) (x : float) (s : string) : Prop :=
  exists sign whole fraction,
    s = sign ++ whole ++ "." ++ fraction
    /\ (sign = "-" /\ (realValue x < 0)%R \/ sign = "" /\ (0 <= realValue x)%R)
    /\ whole <> ""
    /\ allDigits whole = true
    /\ allDigits fraction = true
    /\ String.length fraction = f
    /\ (Rabs (IZR (digitsValue (whole ++ fraction)) / 10 ^ f - Rabs (realValue x))
        <= / 2 * / 10 ^ f)%R.

(** NaN, or a value whose sign bit is clear: [+0], a positive number or
    [+Infinity]. *)
Definition signClear (s : spec_float) : bool :=
  match s with
  | S754_nan | S754_zero false | S754_infinity false | S754_finite false _ _ => true
  | _ => false
  end.

(** ** Sample inputs *)

Module Samples.
Import Float64.
#[local] Open Scope float_scope.


(** The round-trip scenario of the specification. *)
Definition houses : list (DataPoint float) :=
  [point 50 100000; point 100 200000; point 150 300000].

Definition housesFit : RegressionResult float :=
  {| m := 2000; b := 0; r2 := 1; rmse := 0; equation := "y = 2000.0000x + 0.00" |}.

(** Three observations with the same area: the example of the
    specification, and two with an area that is not a binary fraction. *)
Definition vertical5 : list (DataPoint float) :=
  [point 5 100; point 5 200; point 5 300].

Definition vertical07 : list (DataPoint float) :=
  [point 0.7 100; point 0.7 200; point 0.7 300].

Definition verticalHouses : list (DataPoint float) :=
  [point 72.4 250000; point 72.4 260000; point 72.4 270000].


(** The same price throughout: 50, and 0.1 over six areas. *)
Definition flat50 : list (DataPoint float) :=
  [point 1 50; point 2 50; point 3 50].

Definition flatTenth : list (DataPoint float) :=
  [point 1 0.1; point 2 0.1; point 3 0.1; point 4 0.1; point 5 0.1; point 6 0.1].

(** Three points and the same three in reverse order. *)
Definition tenths : list (DataPoint float) :=
  [point 0.1 1; point 0.2 2; point 0.3 3].


(** A slope of [10^21]. *)
Definition steep : list (DataPoint float) :=
  [point 0 0; point 1 1e21].

(** The same observations under different identifiers. *)
Definition named : list (DataPoint float) :=
  [ {| id := "a"; area := 50; price := 100000 |};
    {| id := "b"; area := 100; price := 200000 |};
    {| id := "c"; area := 150; price := 300000 |} ].

(** A single observation. *)
Definition lonely : list (DataPoint float) := [point 120 250000].


(** Three areas within a thousandth of one another, one price. *)
Definition crowded : list (DataPoint float) :=
  [point 9999.999 0.1; point 9999.9995 0.1; point 10000 0.1].

(** The same with the price scaled by [2^550]. *)
Definition crowdedScaled : list (DataPoint float) :=
  [point 9999.999 0x1.999999999999ap+546; point 9999.9995 0x1.999999999999ap+546;
   point 10000 0x1.999999999999ap+546].

(** A slope beyond the largest binary64 number. *)
Definition overflowing : list (DataPoint float) :=
  [point 0 0; point 1 1e308].

End Samples.

(** ** The page: what is computed from a fitted model ([app/page]) *)

Section Derived.
Context {num : Type} `{Number num}.
#[local] Open Scope num_scope.

(** One entry of the residual plot: [{ area, residual, actual, predicted }]
    (the field [area] is named [plotArea] here, [area] being taken). *)
Record ResidualPoint : Type := {
  plotArea : num;
  residual : num;
  actual : num;
  predicted : num
}.

(** The [residuals] memo: nothing without a model, otherwise one entry per
    observation, in order. *)
Definition residuals (model : option (RegressionResult num))
           (data : list (DataPoint num)) : list ResidualPoint :=
  match model with
  | None => []
  | Some model =>
      map (fun d =>
             let yhat := predictPrice (area d) (m model) (b model) in
             {| plotArea := area d;
                residual := price d - yhat;
                actual := price d;
                predicted := yhat |})
          data
  end.

End Derived.
Arguments ResidualPoint num : clear implicits.

(** ** The page: form input, validation and state ([app/page]) *)

Module Page.

(** *** Text *)

(** A JavaScript string is a sequence of UTF-16 code units.  The text of
    the three input fields is modelled that way; identifiers and messages,
    which are only compared and shown, stay [string]s. *)
Definition text : Type := list N.

(** [WhiteSpace] and [LineTerminator] of ECMA-262: what [trim] removes. *)
Definition isWhiteSpace (c : N) : bool :=
  existsb (N.eqb c)
          [9; 10; 11; 12; 13; 32; 160; 5760; 8232; 8233; 8239; 8287; 12288; 65279]%N
  || ((8192 <=? c)%N && (c <=? 8202)%N).

Fixpoint trimStart (s : text) : text :=
  match s with
  | c :: rest => if isWhiteSpace c then trimStart rest else s
  | [] => []
  end.

Definition trimEnd (s : text) : text := rev (trimStart (rev s)).

(** [String.prototype.trim] *)
Definition trim (s : text) : text := trimEnd (trimStart s).

(** [v.replace(/,/g, "")]: every comma (U+002C) is dropped. *)
Definition removeCommas (v : text) : text :=
  filter (fun c => negb (c =? 44)%N) v.

(** *** Validation *)

Definition validateArea (area : float) : option string :=
  if negb (PrimFloat.is_finite area) then Some "Area is required."
  else if PrimFloat.leb area 0 then Some "Area must be a positive number."
  else if PrimFloat.ltb 10000 area then Some "Area must be ≤ 10,000."
  else None.

Definition validatePrice (price : float) : option string :=
  if negb (PrimFloat.is_finite price) then Some "Price is required."
  else if PrimFloat.leb price 0 then Some "Price must be a positive number."
  else if PrimFloat.ltb 100000000 price then Some "Price must be ≤ $100,000,000."
  else None.

(** The truth value of a [string | null]: [null] and the empty string are
    false. *)
Definition truthy (o : option string) : bool :=
  match o with
  | Some s => negb (s =? "")%string
  | None => false
  end.

(** *** The regression line of the chart *)

(** [number is -0] and [number is +0]. *)
Definition isNegZero (x : float) : bool :=
  PrimFloat.is_zero x && PrimFloat.get_sign x.

Definition isPosZero (x : float) : bool :=
  PrimFloat.is_zero x && negb (PrimFloat.get_sign x).

(** [Math.min(...xs)] and [Math.max(...xs)], steps 3 to 5 of ECMA-262: a NaN
    makes the result NaN, [-0] counts as smaller than [+0]. *)
Fixpoint minFrom (lowest : float) (xs : list float) : float :=
  match xs with
  | [] => lowest
  | number :: rest =>
      if PrimFloat.is_nan number then nan
      else
        let lowest := if isNegZero number && isPosZero lowest
                      then neg_zero else lowest in
        let lowest := if PrimFloat.ltb number lowest then number else lowest in
        minFrom lowest rest
  end.

Definition mathMin (xs : list float) : float := minFrom infinity xs.

Fixpoint maxFrom (highest : float) (xs : list float) : float :=
  match xs with
  | [] => highest
  | number :: rest =>
      if PrimFloat.is_nan number then nan
      else
        let highest := if isPosZero number && isNegZero highest
                       then 0%float else highest in
        let highest := if PrimFloat.ltb highest number then number else highest in
        maxFrom highest rest
  end.

Definition mathMax (xs : list float) : float := maxFrom neg_infinity xs.

(** A point of the line series: [{ area, price }]. *)
Record LinePoint : Type := {
  lineArea : float;
  linePrice : float
}.

(** The [regressionLine] memo: the fitted line at the smallest and at the
    largest area of the table. *)
Definition regressionLine (model : option (RegressionResult float))
           (data : list (DataPoint float)) : list LinePoint :=
  match model with
  | None => []
  | Some model =>
      if (List.length data =? 0)%nat then []
      else
        let xs := map area data in
        let minX := mathMin xs in
        let maxX := mathMax xs in
        [ {| lineArea := minX; linePrice := predictPrice minX (m model) (b model) |};
          {| lineArea := maxX; linePrice := predictPrice maxX (m model) (b model) |} ]
  end.

(** A positive finite number: what a validator lets through. *)
Definition positiveFinite (x : float) : bool :=
  match Prim2SF x with
  | S754_finite false _ _ => true
  | _ => false
  end.

(** The values that [Math.min] and [Math.max] compare on a table of such
    numbers: the numbers themselves and the infinities the two loops start
    from. *)
Definition comparable (s : spec_float) : bool :=
  match s with
  | S754_finite false _ _ => true
  | S754_infinity _ => true
  | _ => false
  end.

(** *** The state of the component: one field per [useState] *)

(** The fields [area] and [price] are named [areaInput] and [priceInput]
    here, the names being taken by [DataPoint]. *)
Record State : Type := {
  data : list (DataPoint float);
  areaInput : text;
  priceInput : text;
  editId : option string;
  formError : string;
  areaError : option string;
  priceError : option string;
  model : option (RegressionResult float);
  trainError : string;
  predictArea : text;
  predictError : string;
  predictedPrice : option float
}.

Definition initial : State :=
  {| data := []; areaInput := []; priceInput := []; editId := None;
     formError := ""; areaError := None; priceError := None;
     model := None; trainError := "";
     predictArea := []; predictError := ""; predictedPrice := None |}.

Definition setData (v : list (DataPoint float)) (st : State) : State :=
  {| data := v; areaInput := areaInput st; priceInput := priceInput st;
     editId := editId st; formError := formError st; areaError := areaError st;
     priceError := priceError st; model := model st; trainError := trainError st;
     predictArea := predictArea st; predictError := predictError st;
     predictedPrice := predictedPrice st |}.

Definition setArea (v : text) (st : State) : State :=
  {| data := data st; areaInput := v; priceInput := priceInput st;
     editId := editId st; formError := formError st; areaError := areaError st;
     priceError := priceError st; model := model st; trainError := trainError st;
     predictArea := predictArea st; predictError := predictError st;
     predictedPrice := predictedPrice st |}.

Definition setPrice (v : text) (st : State) : State :=
  {| data := data st; areaInput := areaInput st; priceInput := v;
     editId := editId st; formError := formError st; areaError := areaError st;
     priceError := priceError st; model := model st; trainError := trainError st;
     predictArea := predictArea st; predictError := predictError st;
     predictedPrice := predictedPrice st |}.

Definition setEditId (v : option string) (st : State) : State :=
  {| data := data st; areaInput := areaInput st; priceInput := priceInput st;
     editId := v; formError := formError st; areaError := areaError st;
     priceError := priceError st; model := model st; trainError := trainError st;
     predictArea := predictArea st; predictError := predictError st;
     predictedPrice := predictedPrice st |}.

Definition setFormError (v : string) (st : State) : State :=
  {| data := data st; areaInput := areaInput st; priceInput := priceInput st;
     editId := editId st; formError := v; areaError := areaError st;
     priceError := priceError st; model := model st; trainError := trainError st;
     predictArea := predictArea st; predictError := predictError st;
     predictedPrice := predictedPrice st |}.

Definition setAreaError (v : option string) (st : State) : State :=
  {| data := data st; areaInput := areaInput st; priceInput := priceInput st;
     editId := editId st; formError := formError st; areaError := v;
     priceError := priceError st; model := model st; trainError := trainError st;
     predictArea := predictArea st; predictError := predictError st;
     predictedPrice := predictedPrice st |}.

Definition setPriceError (v : option string) (st : State) : State :=
  {| data := data st; areaInput := areaInput st; priceInput := priceInput st;
     editId := editId st; formError := formError st; areaError := areaError st;
     priceError := v; model := model st; trainError := trainError st;
     predictArea := predictArea st; predictError := predictError st;
     predictedPrice := predictedPrice st |}.

Definition setModel (v : option (RegressionResult float)) (st : State) : State :=
  {| data := data st; areaInput := areaInput st; priceInput := priceInput st;
     editId := editId st; formError := formError st; areaError := areaError st;
     priceError := priceError st; model := v; trainError := trainError st;
     predictArea := predictArea st; predictError := predictError st;
     predictedPrice := predictedPrice st |}.

Definition setTrainError (v : string) (st : State) : State :=
  {| data := data st; areaInput := areaInput st; priceInput := priceInput st;
     editId := editId st; formError := formError st; areaError := areaError st;
     priceError := priceError st; model := model st; trainError := v;
     predictArea := predictArea st; predictError := predictError st;
     predictedPrice := predictedPrice st |}.

Definition setPredictArea (v : text) (st : State) : State :=
  {| data := data st; areaInput := areaInput st; priceInput := priceInput st;
     editId := editId st; formError := formError st; areaError := areaError st;
     priceError := priceError st; model := model st; trainError := trainError st;
     predictArea := v; predictError := predictError st;
     predictedPrice := predictedPrice st |}.

Definition setPredictError (v : string) (st : State) : State :=
  {| data := data st; areaInput := areaInput st; priceInput := priceInput st;
     editId := editId st; formError := formError st; areaError := areaError st;
     priceError := priceError st; model := model st; trainError := trainError st;
     predictArea := predictArea st; predictError := v;
     predictedPrice := predictedPrice st |}.

Definition setPredictedPrice (v : option float) (st : State) : State :=
  {| data := data st; areaInput := areaInput st; priceInput := priceInput st;
     editId := editId st; formError := formError st; areaError := areaError st;
     priceError := priceError st; model := model st; trainError := trainError st;
     predictArea := predictArea st; predictError := predictError st;
     predictedPrice := v |}.

(** The effect on [[data]], "Reset model when data changes": React runs it
    after every update that replaces the [data] array. *)
Definition dataChanged (st : State) : State :=
  setPredictError "" (setTrainError "" (setPredictedPrice None (setModel None st))).

(** What the user and the environment can do.  [SubmitTraining] carries the
    identifier that [nanoid()] returns if it is called, [Load] the array
    that the mount effect reads from local storage. *)
Inductive Event : Type :=
| ChangeArea (v : text)
| BlurArea
| ChangePrice (v : text)
| BlurPrice
| SubmitTraining (newId : string)
| StartEdit (d : DataPoint float)
| Remove (i : string)
| CancelEdit
| Train
| ChangePredictArea (v : text)
| Predict
| Load (parsed : list (DataPoint float)).

Section Host.

(** Three things come from the host: [Number(text)], [String(number)] and
    the message of the [RangeError] that [toFixed] can throw. *)
Variable toNumber : text -> float.
Variable toText : float -> text.
Variable rangeErrorMessage : string.

Definition parseNumber (v : text) : float :=
  let cleaned := trim (removeCommas v) in
  match cleaned with
  | [] => nan
  | _ => toNumber cleaned
  end.

(** *** The handlers *)

(** The row [d] after saving the edit of identifier [e]:
    [d.id === editId ? { ...d, area: a, price: p } : d]. *)
Definition saved (e : string) (a p : float) (d : DataPoint float)
  : DataPoint float :=
  if (id d =? e)%string then {| id := id d; area := a; price := p |} else d.

Definition added (newId : string) (a p : float) : DataPoint float :=
  {| id := newId; area := a; price := p |}.

Definition onSubmitTraining (newId : string) (st : State) : State :=
  let st := setFormError "" st in
  let a := parseNumber (areaInput st) in
  let p := parseNumber (priceInput st) in
  let aErr := validateArea a in
  let pErr := validatePrice p in
  let st := setPriceError pErr (setAreaError aErr st) in
  if truthy aErr || truthy pErr then st
  else
    let canAddMore := (List.length (data st) <? 50)%nat in
    if negb canAddMore && (match editId st with None => true | Some _ => false end)
    then setFormError "Maximum of 50 entries reached." st
    else
      let st :=
        match editId st with
        | Some e =>
            if truthy (Some e)
            then setEditId None (setData (map (saved e a p) (data st)) st)
            else setData (data st ++ [added newId a p]) st
        | None => setData (data st ++ [added newId a p]) st
        end in
      dataChanged
        (setPriceError None (setAreaError None (setPrice [] (setArea [] st)))).

Definition startEdit (d : DataPoint float) (st : State) : State :=
  setFormError ""
    (setPriceError None
       (setAreaError None
          (setPrice (toText (price d))
             (setArea (toText (area d)) (setEditId (Some (id d)) st))))).

Definition remove (i : string) (st : State) : State :=
  dataChanged (setData (filter (fun d => negb (id d =? i)%string) (data st)) st).

Definition cancelEdit (st : State) : State :=
  setFormError ""
    (setPriceError None
       (setAreaError None (setPrice [] (setArea [] (setEditId None st))))).

(** [err instanceof Error ? err.message : ...]: both exceptions are
    [Error]s. *)
Definition message (e : Exception) : string :=
  match e with
  | Error msg => msg
  | RangeError => rangeErrorMessage
  end.

Definition train (st : State) : State :=
  let st := setTrainError "" st in
  match calculateRegression (data st) with
  | Return r => setModel (Some r) st
  | Throw err => setTrainError (message err) (setModel None st)
  end.

Definition onPredict (st : State) : State :=
  let st := setPredictError "" st in
  match model st with
  | None => setPredictedPrice None (setPredictError "Train the model first." st)
  | Some fitted =>
      let a := parseNumber (predictArea st) in
      let err := validateArea a in
      if truthy err then
        setPredictedPrice None
          (setPredictError (match err with Some s => s | None => "" end) st)
      else
        let y := predictPrice a (m fitted) (b fitted) in
        setPredictedPrice (Some y) st
  end.

(** The state after an event and the effects it triggers. *)
Definition handle (ev : Event) (st : State) : State :=
  match ev with
  | ChangeArea v => setArea v st
  | BlurArea => setAreaError (validateArea (parseNumber (areaInput st))) st
  | ChangePrice v => setPrice v st
  | BlurPrice => setPriceError (validatePrice (parseNumber (priceInput st))) st
  | SubmitTraining newId => onSubmitTraining newId st
  | StartEdit d => startEdit d st
  | Remove i => remove i st
  | CancelEdit => cancelEdit st
  | Train => train st
  | ChangePredictArea v => setPredictArea v st
  | Predict => onPredict st
  | Load parsed => dataChanged (setData parsed st)
  end.

(** The [predictionPoint] memo: the area in the prediction field with the
    predicted price in state. *)
Definition predictionPoint (st : State) : list LinePoint :=
  let a := parseNumber (predictArea st) in
  match model st, predictedPrice st with
  | Some _, Some y =>
      if negb (PrimFloat.is_finite a) then []
      else [ {| lineArea := a; linePrice := y |} ]
  | _, _ => []
  end.

(** An event that the page can produce in a state: the Edit and Delete
    buttons belong to a row of the table, [nanoid()] returns a non-empty
    identifier that is not in use, and what is loaded was stored by the page:
    at most 50 valid observations with distinct non-empty identifiers. *)
Definition wellFormed (l : list (DataPoint float)) : Prop :=
  (List.length l <= 50)%nat
  /\ NoDup (map id l)
  /\ forall d, In d l ->
       id d <> "" /\ validateArea (area d) = None /\ validatePrice (price d) = None.

Definition possible (ev : Event) (st : State) : Prop :=
  match ev with
  | SubmitTraining newId => newId <> "" /\ ~ In newId (map id (data st))
  | StartEdit d => In d (data st)
  | Remove i => In i (map id (data st))
  | Load parsed => wellFormed parsed
  | _ => True
  end.

Inductive Reachable : State -> Prop :=
| reach_initial : Reachable initial
| reach_step (st : State) (ev : Event) :
    Reachable st -> possible ev st -> Reachable (handle ev st).

(** A text with nothing but white space and commas. *)
Definition blank (v : text) : Prop :=
  forall c, In c v -> isWhiteSpace c = true \/ c = 44%N.

(** The observations of a state are well formed, and an edit in progress
    has a non-empty identifier. *)
Definition tidy (st : State) : Prop :=
  wellFormed (data st) /\ (forall e, editId st = Some e -> e <> "").

(** The model and the prediction shown belong to the observations shown. *)
Definition upToDate (st : State) : Prop :=
  (forall r, model st = Some r -> calculateRegression (data st) = Return r)
  /\ (forall y, predictedPrice st = Some y ->
        exists r a, model st = Some r
                    /\ validateArea a = None
                    /\ y = predictPrice a (m r) (b r)).

End Host.

End Page.

(** ** Sample pages *)

Module PageSamples.
Import Page.
#[local] Open Scope float_scope.

(** The code units of an ASCII text. *)
Definition ofString (s : string) : text :=
  map (fun c => N.of_nat (nat_of_ascii c)) (list_ascii_of_string s).

Definition isDecimalDigit (c : N) : bool := (48 <=? c)%N && (c <=? 57)%N.

(** A host for the samples.  [Number(text)] of a run of decimal digits is
    the binary64 value of the integer they denote; any other text is
    answered with NaN here.  [String(number)] of a positive whole number
    below [10^21] is its decimal digits; any other number is answered with
    the empty text here. *)
Definition digitsNumber (v : text) : float :=
  if forallb isDecimalDigit v
  then Float64.ofInteger (fold_left (fun acc c => (10 * acc + (Z.of_N c - 48))%Z) v 0%Z)
  else nan.

Definition wholeText (x : float) : text :=
  match Prim2SF x with
  | S754_finite false mant e =>
      let num := (Z.pos mant * 2 ^ Z.max e 0)%Z in
      let den := (2 ^ Z.max (- e) 0)%Z in
      if (num mod den =? 0)%Z && (num / den <? 10 ^ 21)%Z
      then ofString (Float64.decimal (num / den))
      else []
  | _ => []
  end.

Definition rangeMessage : string :=
  "toFixed() digits argument must be between 0 and 100".

(** The page after a sequence of events, first to last. *)
Definition after (events : list Event) : State :=
  fold_left (fun st ev => handle digitsNumber wholeText rangeMessage ev st)
            events initial.

Definition rowA : DataPoint float := {| id := "a"; area := 50; price := 100000 |}.
Definition rowB : DataPoint float := {| id := "b"; area := 100; price := 200000 |}.
Definition rowC : DataPoint float := {| id := "c"; area := 150; price := 300000 |}.

(** Three stored observations, read on mount. *)
Definition loaded : State := after [Load Samples.named].

(** The same, with a model trained. *)
Definition trained : State := after [Load Samples.named; Train].

(** A new observation typed into the form. *)
Definition typing : State :=
  after [Load Samples.named;
         ChangeArea (ofString "120"); ChangePrice (ofString "250000")].

(** A price typed, the area left empty. *)
Definition halfTyped : State :=
  after [Load Samples.named; ChangePrice (ofString "250000")].

(** The second row being edited, with new values typed. *)
Definition editing : State :=
  after [Load Samples.named; StartEdit rowB;
         ChangeArea (ofString "110"); ChangePrice (ofString "210000")].

(** A model trained and an area typed into the prediction field. *)
Definition asking : State :=
  after [Load Samples.named; Train; ChangePredictArea (ofString "120")].

(** The second row deleted while it was being edited. *)
Definition orphaned : State :=
  after [Load Samples.named; StartEdit rowB; Remove "b"].

End PageSamples.

(** * Properties *)

(** ** The two loops compute the running sums *)

Section Generic.
Context {num : Type} `{Number num}.
#[local] Open Scope num_scope.

Lemma fold_addPoint (data : list (DataPoint num)) (s : Sums) :
  fold_left addPoint data s =
  {| sumX := fold_left (fun acc p => acc + area p) data (sumX s);
     sumY := fold_left (fun acc p => acc + price p) data (sumY s);
     sumXY := fold_left (fun acc p => acc + area p * price p) data (sumXY s);
     sumXX := fold_left (fun acc p => acc + area p * area p) data (sumXX s) |}.
Proof.
  revert s; induction data as [|p data IH]; intros s.
  - destruct s; reflexivity.
  - cbn [fold_left]. rewrite IH. reflexivity.
Qed.

Lemma accumulate_total (data : list (DataPoint num)) :
  accumulate data =
  {| sumX := total area data;
     sumY := total price data;
     sumXY := total (fun p => area p * price p) data;
     sumXX := total (fun p => area p * area p) data |}.
Proof. unfold accumulate. rewrite fold_addPoint. reflexivity. Qed.

Lemma fold_addSquares (m b meanY : num) (data : list (DataPoint num)) (q : Squares) :
  fold_left (addSquares m b meanY) data q =
  {| ssTot := fold_left (fun acc p => acc + pow2 (price p - meanY)) data (ssTot q);
     ssRes := fold_left (fun acc p => acc + pow2 (price p - (m * area p + b))) data (ssRes q) |}.
Proof.
  revert q; induction data as [|p data IH]; intros q.
  - destruct q; reflexivity.
  - cbn [fold_left]. rewrite IH. reflexivity.
Qed.

Lemma accumulateSquares_total (m b meanY : num) (data : list (DataPoint num)) :
  accumulateSquares m b meanY data =
  {| ssTot := total (fun p => pow2 (price p - meanY)) data;
     ssRes := total (fun p => pow2 (price p - (m * area p + b))) data |}.
Proof. unfold accumulateSquares. rewrite fold_addSquares. reflexivity. Qed.

(** From two observations on, the function returns, and what it returns is
    decided by the denominator alone. *)
Lemma calculateRegression_cases (data : list (DataPoint num)) :
  (2 <= List.length data)%nat ->
  calculateRegression data =
  if olsDenominator data === zero then Return verticalLine
  else Return (olsResult data).
Proof.
  intros Hlen. unfold calculateRegression.
  destruct (Nat.ltb_spec (List.length data) 2) as [Hlt|_]; [lia|].
  cbv zeta. rewrite accumulate_total. cbn [sumX sumY sumXY sumXX].
  fold (count data). fold (olsDenominator data).
  destruct (olsDenominator data === zero); [reflexivity|].
  fold (olsSlope data). fold (olsIntercept data). fold (meanPrice data).
  rewrite accumulateSquares_total. cbn [ssTot ssRes].
  reflexivity.
Qed.

Lemma calculateRegression_short (data : list (DataPoint num)) :
  (List.length data < 2)%nat ->
  calculateRegression data = Throw (Error "Insufficient data points").
Proof.
  intros Hlen. unfold calculateRegression.
  destruct (Nat.ltb_spec (List.length data) 2) as [_|Hge]; [reflexivity|lia].
Qed.

(** A zero denominator gives the sentinel. *)
Lemma zero_denominator_verticalLine (data : list (DataPoint num)) :
  (2 <= List.length data)%nat ->
  (olsDenominator data === zero) = true ->
  calculateRegression data = Return verticalLine.
Proof.
  intros Hlen HD. rewrite (calculateRegression_cases data Hlen), HD. reflexivity.
Qed.

(** What a returned result tells about the input. *)
Lemma calculateRegression_returned (data : list (DataPoint num))
      (r : RegressionResult num) :
  calculateRegression data = Return r ->
  (2 <= List.length data)%nat
  /\ ((olsDenominator data === zero) = true /\ r = verticalLine
      \/ (olsDenominator data === zero) = false /\ r = olsResult data).
Proof.
  intros Hr.
  destruct (Nat.lt_ge_cases (List.length data) 2) as [Hshort|Hlen].
  - rewrite (calculateRegression_short data Hshort) in Hr. discriminate.
  - split; [exact Hlen|].
    rewrite (calculateRegression_cases data Hlen) in Hr.
    destruct (olsDenominator data === zero); injection Hr as <-; auto.
Qed.

End Generic.

(** ** The first two observations *)

Section FirstTwo.
Context {num : Type} `{Number num}.
#[local] Open Scope num_scope.

(** An arithmetic in which a sum of two terms, accumulated from 0, does
    not depend on the order of the terms. *)
Hypothesis add_two_terms : forall a b : num, zero + a + b = zero + b + a.



End FirstTwo.

(** ** Binary64: what the program computes *)

Module Float64Facts.
Import Float64 Samples.
#[local] Open Scope float_scope.


Lemma houses_result :
  calculateRegression houses =
  Return {| m := 2000; b := 0; r2 := 1; rmse := 0;
            equation := "y = 2000.0000x + 0.00" |}.
Proof. vm_compute. reflexivity. Qed.

Lemma vertical5_result : calculateRegression vertical5 = Return verticalLine.
Proof. vm_compute. reflexivity. Qed.

Lemma flat50_result :
  calculateRegression flat50 =
  Return {| m := 0; b := 50; r2 := 0; rmse := 0; equation := "y = 0.0000x + 50.00" |}.
Proof. vm_compute. reflexivity. Qed.

Lemma steep_result :
  calculateRegression steep =
  Return {| m := 1e21; b := 0; r2 := 1; rmse := 0; equation := "y = 1e+21x + 0.00" |}.
Proof. vm_compute. reflexivity. Qed.


(** *** The text of [toFixed] *)

Lemma allDigits_app (s t : string) :
  allDigits (s ++ t) = allDigits s && allDigits t.
Proof.
  induction s as [|c s IH]; cbn.
  - reflexivity.
  - rewrite IH, andb_assoc. reflexivity.
Qed.

Lemma append_assoc (s t u : string) : (s ++ t) ++ u = s ++ (t ++ u).
Proof. induction s as [|c s IH]; cbn; [reflexivity|rewrite IH; reflexivity]. Qed.

Lemma length_app (s t : string) :
  String.length (s ++ t) = (String.length s + String.length t)%nat.
Proof. induction s as [|c s IH]; cbn; [reflexivity|rewrite IH; reflexivity]. Qed.

Lemma digitsValueFrom_app (s t : string) (acc : Z) :
  digitsValueFrom acc (s ++ t) = digitsValueFrom (digitsValueFrom acc s) t.
Proof. revert acc; induction s as [|c s IH]; intros acc; cbn; [reflexivity|apply IH]. Qed.

Lemma isDigit_digitChar (d : Z) : (0 <= d < 10)%Z -> isDigit (digitChar d) = true.
Proof.
  intros Hd.
  assert (Hcases : (d = 0 \/ d = 1 \/ d = 2 \/ d = 3 \/ d = 4 \/ d = 5 \/ d = 6
                    \/ d = 7 \/ d = 8 \/ d = 9)%Z) by lia.
  repeat (destruct Hcases as [->|Hcases]; [reflexivity | idtac]). subst d. reflexivity.
Qed.

Lemma value_digitChar (d : Z) :
  (0 <= d < 10)%Z -> (Z.of_nat (nat_of_ascii (digitChar d)) - 48 = d)%Z.
Proof.
  intros Hd.
  assert (Hcases : (d = 0 \/ d = 1 \/ d = 2 \/ d = 3 \/ d = 4 \/ d = 5 \/ d = 6
                    \/ d = 7 \/ d = 8 \/ d = 9)%Z) by lia.
  repeat (destruct Hcases as [->|Hcases]; [reflexivity | idtac]). subst d. reflexivity.
Qed.

Lemma decimalAux_app (fuel : nat) (v : Z) (acc : string) :
  decimalAux fuel v acc = decimalAux fuel v "" ++ acc.
Proof.
  revert v acc; induction fuel as [|fuel IH]; intros v acc; cbn.
  - reflexivity.
  - destruct (v / 10 =? 0)%Z.
    + reflexivity.
    + rewrite (IH _ (String _ acc)), (IH _ (String _ "")).
      rewrite append_assoc. reflexivity.
Qed.

Lemma decimalAux_digits (fuel : nat) (v : Z) :
  allDigits (decimalAux fuel v "") = true.
Proof.
  revert v; induction fuel as [|fuel IH]; intros v; cbn [decimalAux].
  - reflexivity.
  - assert (Hd : isDigit (digitChar (v mod 10)) = true)
      by (apply isDigit_digitChar, Z.mod_pos_bound; lia).
    destruct (v / 10 =? 0)%Z.
    + cbn [allDigits]. rewrite Hd. reflexivity.
    + rewrite decimalAux_app, allDigits_app, IH. cbn [allDigits].
      rewrite Hd. reflexivity.
Qed.

Lemma decimalAux_nonempty (fuel : nat) (v : Z) :
  decimalAux (S fuel) v "" <> "".
Proof.
  cbn [decimalAux]. destruct (v / 10 =? 0)%Z; [discriminate|].
  rewrite decimalAux_app. destruct (decimalAux fuel (v / 10) ""); discriminate.
Qed.

Lemma decimalAux_value (fuel : nat) (v : Z) :
  (0 <= v < 10 ^ Z.of_nat fuel)%Z ->
  digitsValue (decimalAux fuel v "") = v.
Proof.
  unfold digitsValue.
  revert v; induction fuel as [|fuel IH]; intros v Hv.
  - cbn in *. lia.
  - cbn [decimalAux].
    assert (Hd : (0 <= v mod 10 < 10)%Z) by (apply Z.mod_pos_bound; lia).
    destruct (Z.eqb_spec (v / 10) 0) as [Hq|Hq].
    + cbn [digitsValueFrom]. rewrite value_digitChar by exact Hd.
      pose proof (Z.div_mod v 10 ltac:(lia)). lia.
    + rewrite decimalAux_app, digitsValueFrom_app, IH.
      * cbn [digitsValueFrom]. rewrite value_digitChar by exact Hd.
        pose proof (Z.div_mod v 10 ltac:(lia)). lia.
      * rewrite Nat2Z.inj_succ, Z.pow_succ_r in Hv by lia.
        split; [apply Z.div_pos; lia|apply Z.div_lt_upper_bound; lia].
Qed.

Lemma decimal_digits (v : Z) : allDigits (decimal v) = true.
Proof. apply decimalAux_digits. Qed.

Lemma decimal_nonempty (v : Z) : decimal v <> "".
Proof. apply decimalAux_nonempty. Qed.

Lemma decimal_value (v : Z) : (0 <= v)%Z -> digitsValue (decimal v) = v.
Proof.
  intros Hv. apply decimalAux_value. split; [exact Hv|].
  destruct (Z.eq_dec v 0) as [->|Hnz].
  - cbn. lia.
  - pose proof (Z.log2_spec v ltac:(lia)) as [_ Hlt].
    pose proof (Z.log2_nonneg v) as Hlog.
    rewrite Nat2Z.inj_succ, Z2Nat.id by exact Hlog.
    apply (Z.lt_le_trans _ _ _ Hlt).
    apply Z.pow_le_mono_l. lia.
Qed.

Lemma firstChars_otherChars (k : nat) (s : string) :
  firstChars k s ++ otherChars k s = s.
Proof.
  revert s; induction k as [|k IH]; intros [|c s]; cbn; try reflexivity.
  rewrite IH. reflexivity.
Qed.

Lemma length_otherChars (k : nat) (s : string) :
  String.length (otherChars k s) = (String.length s - k)%nat.
Proof.
  revert s; induction k as [|k IH]; intros [|c s]; cbn; try reflexivity.
  apply IH.
Qed.

Lemma firstChars_nonempty (k : nat) (s : string) :
  (0 < k)%nat -> s <> "" -> firstChars k s <> "".
Proof. destruct k, s; cbn; intros; try lia; congruence. Qed.

Lemma zeros_digits (k : nat) : allDigits (zeros k) = true.
Proof. induction k as [|k IH]; cbn; [reflexivity|exact IH]. Qed.

Lemma zeros_length (k : nat) : String.length (zeros k) = k.
Proof. induction k as [|k IH]; cbn; [reflexivity|rewrite IH; reflexivity]. Qed.

Lemma zeros_value (k : nat) : digitsValueFrom 0 (zeros k) = 0%Z.
Proof. induction k as [|k IH]; cbn; [reflexivity|exact IH]. Qed.

(** The text of step 11: digits, a point, exactly [f] digits, denoting [n]. *)
Lemma fixedText_spec (n : Z) (f : nat) :
  (0 <= n)%Z -> f <> O ->
  exists whole fraction,
    fixedText n f = whole ++ "." ++ fraction
    /\ whole <> ""
    /\ allDigits whole = true
    /\ allDigits fraction = true
    /\ String.length fraction = f
    /\ digitsValue (whole ++ fraction) = n.
Proof.
  intros Hn Hf. unfold fixedText.
  destruct (Nat.eqb_spec f 0) as [|_]; [contradiction|].
  set (padded := if (String.length (decimal n) <=? f)%nat
                 then zeros (f + 1 - String.length (decimal n)) ++ decimal n
                 else decimal n).
  assert (Hdigits : allDigits padded = true).
  { unfold padded. destruct (_ <=? _)%nat.
    - rewrite allDigits_app, zeros_digits, decimal_digits. reflexivity.
    - apply decimal_digits. }
  assert (Hlen : (f < String.length padded)%nat).
  { unfold padded. destruct (Nat.leb_spec (String.length (decimal n)) f).
    - rewrite length_app, zeros_length. lia.
    - assumption. }
  assert (Hval : digitsValue padded = n).
  { unfold padded, digitsValue. destruct (_ <=? _)%nat.
    - rewrite digitsValueFrom_app, zeros_value. apply decimal_value, Hn.
    - apply decimal_value, Hn. }
  cbv zeta.
  exists (firstChars (String.length padded - f) padded),
         (otherChars (String.length padded - f) padded).
  pose proof (firstChars_otherChars (String.length padded - f) padded) as Hsplit.
  rewrite <- Hsplit, allDigits_app in Hdigits.
  apply andb_true_iff in Hdigits as [Hw Hfr].
  repeat split.
  - apply firstChars_nonempty; [lia|]. destruct padded; [cbn in Hlen; lia|discriminate].
  - exact Hw.
  - exact Hfr.
  - rewrite length_otherChars. lia.
  - rewrite Hsplit. exact Hval.
Qed.

Lemma nearestScaled_bounds (mant : positive) (e : Z) (f : nat) :
  let num := (Z.pos mant * 10 ^ Z.of_nat f * 2 ^ Z.max e 0)%Z in
  let den := (2 ^ Z.max (- e) 0)%Z in
  let n := nearestScaled mant e f in
  (0 < den /\ 0 <= n /\ 2 * den * n <= 2 * num + den < 2 * den * n + 2 * den)%Z.
Proof.
  intros num den n.
  assert (Hden : (0 < den)%Z) by (apply Z.pow_pos_nonneg; lia).
  assert (Hnum : (0 <= num)%Z).
  { unfold num. apply Z.mul_nonneg_nonneg; [apply Z.mul_nonneg_nonneg|]; try lia;
      apply Z.pow_nonneg; lia. }
  assert (Hn : n = ((2 * num + den) / (2 * den))%Z) by reflexivity.
  pose proof (Z.mul_div_le (2 * num + den) (2 * den) ltac:(lia)) as Hle.
  pose proof (Z.mul_succ_div_gt (2 * num + den) (2 * den) ltac:(lia)) as Hgt.
  rewrite <- Hn in Hle, Hgt.
  split; [exact Hden|]. split; [|lia].
  rewrite Hn. apply Z.div_pos; lia.
Qed.

Lemma IZR_pow2 (k : Z) : (0 <= k)%Z -> IZR (2 ^ k) = powerRZ 2 k.
Proof.
  intros Hk. rewrite <- (Z2Nat.id k Hk), <- pow_IZR, pow_powerRZ. reflexivity.
Qed.

Lemma powerRZ_scale (e : Z) :
  (powerRZ 2 e * IZR (2 ^ Z.max (- e) 0))%R = IZR (2 ^ Z.max e 0).
Proof.
  rewrite !IZR_pow2 by lia.
  destruct (Z.le_ge_cases 0 e) as [Hpos|Hneg].
  - rewrite (Z.max_r (- e) 0), (Z.max_l e 0) by lia. cbn. ring.
  - rewrite (Z.max_l (- e) 0), (Z.max_r e 0) by lia.
    rewrite <- powerRZ_add by lra.
    replace (e + - e)%Z with 0%Z by lia. reflexivity.
Qed.

(** The integer of step 11.a is within one half of [x * 10^f]. *)
Lemma nearestScaled_close (mant : positive) (e : Z) (f : nat) :
  (Rabs (IZR (nearestScaled mant e f) / 10 ^ f - IZR (Z.pos mant) * powerRZ 2 e)
   <= / 2 * / 10 ^ f)%R.
Proof.
  pose proof (nearestScaled_bounds mant e f) as Hb. cbv zeta in Hb.
  set (n := nearestScaled mant e f) in *.
  set (den := (2 ^ Z.max (- e) 0)%Z) in *.
  assert (Hten : (0 < 10 ^ f)%R) by (apply pow_lt; lra).
  set (X := (IZR (Z.pos mant) * powerRZ 2 e * 10 ^ f)%R).
  assert (Hnum : IZR (Z.pos mant * 10 ^ Z.of_nat f * 2 ^ Z.max e 0) = (X * IZR den)%R).
  { rewrite !mult_IZR, <- pow_IZR, <- powerRZ_scale. unfold X, den. ring. }
  revert Hb Hnum. generalize (Z.pos mant * 10 ^ Z.of_nat f * 2 ^ Z.max e 0)%Z.
  intros num (Hden & _ & Hlo & Hhi) Hnum.
  assert (HdenR : (0 < IZR den)%R) by (apply IZR_lt; exact Hden).
  apply IZR_le in Hlo. apply IZR_lt in Hhi.
  repeat (rewrite plus_IZR in Hlo || rewrite mult_IZR in Hlo).
  repeat (rewrite plus_IZR in Hhi || rewrite mult_IZR in Hhi).
  rewrite Hnum in Hlo, Hhi.
  assert (Hclose : (Rabs (IZR n - X) <= / 2)%R).
  { apply Rabs_le. split.
    - apply (Rmult_le_reg_r (2 * IZR den)); [lra|]. nra.
    - apply (Rmult_le_reg_r (2 * IZR den)); [lra|]. nra. }
  replace (IZR n / 10 ^ f - IZR (Z.pos mant) * powerRZ 2 e)%R
    with ((IZR n - X) * / 10 ^ f)%R by (unfold X; field; lra).
  rewrite Rabs_mult, (Rabs_pos_eq (/ 10 ^ f)) by (left; apply Rinv_0_lt_compat, Hten).
  apply Rmult_le_compat_r; [left; apply Rinv_0_lt_compat, Hten|exact Hclose].
Qed.

(** In the fixed range, [toFixed] renders in fixed-point notation. *)
Lemma toFixedText_fixed (x : float) (f : nat) :
  fixedRange x = true -> f <> O -> rendersFixed f x (toFixedText x f).
Proof.
  unfold fixedRange, toFixedText, rendersFixed, realValue.
  intros Hrange Hf.
  destruct (Prim2SF x) as [s| | |s mant e]; try discriminate.
  - destruct (fixedText_spec 0 f ltac:(lia) Hf)
      as (whole & fraction & Htext & Hne & Hw & Hfr & Hlen & Hval).
    exists "", whole, fraction. rewrite Htext, Hval.
    repeat split; try assumption.
    + right. split; [reflexivity|lra].
    + assert (Hten : (0 < 10 ^ f)%R) by (apply pow_lt; lra).
      replace (0 / 10 ^ f - Rabs 0)%R with 0%R
        by (rewrite Rabs_R0; unfold Rdiv; ring).
      rewrite Rabs_R0. apply Rmult_le_pos; left; [lra|apply Rinv_0_lt_compat, Hten].
  - apply negb_true_iff in Hrange. rewrite Hrange.
    pose proof (nearestScaled_bounds mant e f) as Hb. cbv zeta in Hb.
    destruct Hb as (_ & Hn & _).
    destruct (fixedText_spec (nearestScaled mant e f) f Hn Hf)
      as (whole & fraction & Htext & Hne & Hw & Hfr & Hlen & Hval).
    assert (Hpos : (0 < IZR (Z.pos mant) * powerRZ 2 e)%R).
    { apply Rmult_lt_0_compat; [apply IZR_lt; lia|apply powerRZ_lt; lra]. }
    exists (if s then "-" else ""), whole, fraction. rewrite Htext, Hval.
    repeat split; try assumption.
    + destruct s; [left|right]; (split; [reflexivity|]); nra.
    + replace (Rabs ((if s then -1 else 1) * IZR (Z.pos mant) * powerRZ 2 e))%R
        with (IZR (Z.pos mant) * powerRZ 2 e)%R.
      * apply nearestScaled_close.
      * destruct s.
        -- rewrite Rabs_left by nra. ring.
        -- rewrite Rabs_pos_eq by nra. ring.
Qed.

End Float64Facts.

(** ** Binary64: signs, order and rounding *)

Module Float64Order.

(** *** The sign of a rounded result *)

Lemma binary_round_aux_sign (sx : bool) (mx ex : Z) (lx : location) :
  match binary_round_aux prec emax sx mx ex lx with
  | S754_zero s | S754_infinity s | S754_finite s _ _ => s = sx
  | S754_nan => True
  end.
Proof.
  unfold binary_round_aux.
  destruct (shr_fexp prec emax mx ex lx) as [mrs' e'].
  destruct (shr_fexp prec emax _ e' loc_Exact) as [mrs'' e''].
  destruct (shr_m mrs''); try exact I; [reflexivity|].
  destruct (Z.leb e'' (emax - prec)); reflexivity.
Qed.

Lemma binary_round_sign (sx : bool) (mx : positive) (ex : Z) :
  match binary_round prec emax sx mx ex with
  | S754_zero s | S754_infinity s | S754_finite s _ _ => s = sx
  | S754_nan => True
  end.
Proof.
  unfold binary_round. destruct (shl_align _ _ _) as [mz ez].
  apply binary_round_aux_sign.
Qed.

Lemma signClear_round_aux (mx ex : Z) (lx : location) :
  signClear (binary_round_aux prec emax false mx ex lx) = true.
Proof.
  pose proof (binary_round_aux_sign false mx ex lx) as Hs.
  destruct (binary_round_aux prec emax false mx ex lx); cbn; try subst; reflexivity.
Qed.

Lemma signClear_round (mx : positive) (ex : Z) :
  signClear (binary_round prec emax false mx ex) = true.
Proof.
  unfold binary_round. destruct (shl_align _ _ _) as [mz ez].
  apply signClear_round_aux.
Qed.

Lemma signClear_SFmul_self (x : spec_float) : signClear (SFmul prec emax x x) = true.
Proof.
  destruct x as [[]|[]| |[] mx ex]; cbn [SFmul xorb]; try reflexivity;
    apply signClear_round_aux.
Qed.

Lemma signClear_SFadd (x y : spec_float) :
  signClear x = true -> signClear y = true -> signClear (SFadd prec emax x y) = true.
Proof.
  destruct x as [[]|[]| |[] mx ex], y as [[]|[]| |[] my ey];
    cbn [signClear]; try discriminate; try reflexivity; intros _ _.
  cbn [SFadd cond_Zopp]. cbn [Z.add binary_normalize]. apply signClear_round.
Qed.

Lemma signClear_SFdiv (x y : spec_float) :
  signClear x = true -> signClear y = true -> signClear (SFdiv prec emax x y) = true.
Proof.
  destruct x as [[]|[]| |[] mx ex], y as [[]|[]| |[] my ey];
    cbn [signClear]; try discriminate; try reflexivity; intros _ _.
  cbn [SFdiv xorb].
  destruct (SFdiv_core_binary prec emax (Z.pos mx) ex (Z.pos my) ey) as [[mz ez] lz].
  apply signClear_round_aux.
Qed.

(** *** Binary digits and shifts *)

Lemma digits2_pos_size (p : positive) : digits2_pos p = Pos.size p.
Proof. induction p as [p IH|p IH|]; cbn; [rewrite IH|rewrite IH|]; reflexivity. Qed.

Lemma digits2_pos_bounds (p : positive) :
  (2 ^ (Z.pos (digits2_pos p) - 1) <= Z.pos p < 2 ^ Z.pos (digits2_pos p))%Z.
Proof.
  rewrite digits2_pos_size. split.
  - pose proof (Pos.size_le p) as Hle.
    assert (H2 : (Z.pos (2 ^ Pos.size p) <= Z.pos p~0)%Z) by exact Hle.
    rewrite Pos2Z.inj_pow in H2.
    replace (Z.pos (Pos.size p)) with (Z.succ (Z.pos (Pos.size p) - 1)) in H2 by lia.
    rewrite Z.pow_succ_r in H2 by lia.
    change (Z.pos p~0) with (2 * Z.pos p)%Z in H2. lia.
  - pose proof (Pos.size_gt p) as Hgt.
    assert (H2 : (Z.pos p < Z.pos (2 ^ Pos.size p))%Z) by exact Hgt.
    rewrite Pos2Z.inj_pow in H2. exact H2.
Qed.

Lemma iter_xO_value (m k : positive) :
  Z.pos (Pos.iter xO m k) = (Z.pos m * 2 ^ Z.pos k)%Z.
Proof.
  induction k as [|k IH] using Pos.peano_ind.
  - cbn [Pos.iter]. rewrite Pos2Z.inj_xO. change (2 ^ 1)%Z with 2%Z. lia.
  - rewrite Pos.iter_succ, Pos2Z.inj_xO, IH, Pos2Z.inj_succ, Z.pow_succ_r by lia.
    lia.
Qed.

Lemma shr_1_half (mrs : shr_record) :
  (0 <= shr_m mrs)%Z -> shr_m (shr_1 mrs) = (shr_m mrs / 2)%Z.
Proof.
  destruct mrs as [m r s]. cbn [shr_m shr_1]. intros Hm.
  destruct m as [|[p|p|]|p]; cbn [shr_m]; [reflexivity| | |reflexivity|lia].
  - apply Z.div_unique with (r := 1%Z); lia.
  - apply Z.div_unique with (r := 0%Z); lia.
Qed.

Lemma iter_shr_1 (p : positive) : forall mrs : shr_record,
  (0 <= shr_m mrs)%Z ->
  shr_m (SpecFloat.iter_pos shr_1 p mrs) = (shr_m mrs / 2 ^ Z.pos p)%Z.
Proof.
  induction p as [p IH|p IH|]; intros mrs Hm; cbn [SpecFloat.iter_pos].
  - assert (Hp : (0 < 2 ^ Z.pos p)%Z) by (apply Z.pow_pos_nonneg; lia).
    assert (H1 : (0 <= shr_m (shr_1 mrs))%Z).
    { rewrite shr_1_half by exact Hm. apply Z.div_pos; lia. }
    assert (H2 : (0 <= shr_m (SpecFloat.iter_pos shr_1 p (shr_1 mrs)))%Z).
    { rewrite IH by exact H1. apply Z.div_pos; lia. }
    rewrite (IH _ H2), (IH _ H1), shr_1_half by exact Hm.
    rewrite !Z.div_div by lia.
    replace (2 ^ Z.pos p~1)%Z with (2 * (2 ^ Z.pos p * 2 ^ Z.pos p))%Z; [reflexivity|].
    replace (Z.pos p~1) with (1 + Z.pos p + Z.pos p)%Z by lia.
    rewrite !Z.pow_add_r by lia. change (2 ^ 1)%Z with 2%Z. ring.
  - assert (Hp : (0 < 2 ^ Z.pos p)%Z) by (apply Z.pow_pos_nonneg; lia).
    assert (H2 : (0 <= shr_m (SpecFloat.iter_pos shr_1 p mrs))%Z).
    { rewrite IH by exact Hm. apply Z.div_pos; lia. }
    rewrite (IH _ H2), (IH _ Hm).
    rewrite !Z.div_div by lia.
    replace (2 ^ Z.pos p~0)%Z with (2 ^ Z.pos p * 2 ^ Z.pos p)%Z; [reflexivity|].
    replace (Z.pos p~0) with (Z.pos p + Z.pos p)%Z by lia.
    rewrite !Z.pow_add_r by lia. ring.
  - rewrite shr_1_half by exact Hm. reflexivity.
Qed.

Lemma round_nearest_even_step (m : Z) (l : location) :
  round_nearest_even m l = m \/ round_nearest_even m l = (m + 1)%Z.
Proof.
  destruct l as [|[]]; cbn; auto. destruct (Z.even m); auto.
Qed.


Lemma digits2_iter_xO (m k : positive) :
  Z.pos (digits2_pos (Pos.iter xO m k)) = (Z.pos (digits2_pos m) + Z.pos k)%Z.
Proof.
  induction k as [|k IH] using Pos.peano_ind.
  - cbn [Pos.iter digits2_pos]. lia.
  - rewrite Pos.iter_succ. cbn [digits2_pos]. rewrite Pos2Z.inj_succ, IH. lia.
Qed.

(** *** A number below 1 is not rounded above 1 *)

Lemma fexp_binary64 (e : Z) : fexp prec emax e = Z.max (e - 53) (-1074).
Proof. reflexivity. Qed.

Lemma small_exponent (e : Z) : (e <= -52)%Z -> (e <=? emax - prec)%Z = true.
Proof. intros He. apply Z.leb_le. change (emax - prec)%Z with 971%Z. lia. Qed.

(** The renormalisation after rounding, for a significand of at most
    [2^53] at an exponent of at most [-53]. *)
Lemma renormalised_below_one (m E0 : Z) (mrs : shr_record) (e : Z) :
  (0 <= m <= 2 ^ 53)%Z -> (-1074 <= E0 <= -53)%Z ->
  shr_fexp prec emax m E0 loc_Exact = (mrs, e) ->
  SFltb (S754_finite false 4503599627370496 (-52))
        (match shr_m mrs with
         | Z0 => S754_zero false
         | Z.pos q => if (e <=? emax - prec)%Z then S754_finite false q e
                      else S754_infinity false
         | Z.neg _ => S754_nan
         end) = false.
Proof.
  change (2 ^ 53)%Z with 9007199254740992%Z.
  intros Hm HE. unfold shr_fexp. rewrite fexp_binary64. cbn [shr_record_of_loc].
  destruct (Z.eq_dec m 9007199254740992) as [->|Hne].
  - change (Zdigits2 9007199254740992) with 54%Z.
    replace (Z.max (54 + E0 - 53) (-1074) - E0)%Z with 1%Z by lia.
    cbn [shr SpecFloat.iter_pos]. intros [= <- <-].
    cbn [shr_1 shr_m orb].
    rewrite small_exponent by lia.
    unfold SFltb. cbn [SFcompare].
    destruct (Z.compare_spec (-52) (E0 + 1)); try reflexivity; lia.
  - destruct m as [|q|q]; [| |lia].
    + cbn [Zdigits2].
      destruct (Z.max (0 + E0 - 53) (-1074) - E0)%Z eqn:Hn; [|lia|];
        cbn [shr]; intros [= <- <-]; reflexivity.
    + cbn [Zdigits2].
      pose proof (digits2_pos_bounds q) as [Hlow _].
      assert (Hd : (Z.pos (digits2_pos q) <= 53)%Z).
      { destruct (Z.le_gt_cases (Z.pos (digits2_pos q)) 53) as [|Hgt]; [assumption|].
        exfalso.
        assert (Hpow : (2 ^ 53 <= 2 ^ (Z.pos (digits2_pos q) - 1))%Z)
          by (apply Z.pow_le_mono_r; lia).
        change (2 ^ 53)%Z with 9007199254740992%Z in Hpow. lia. }
      destruct (Z.max (Z.pos (digits2_pos q) + E0 - 53) (-1074) - E0)%Z eqn:Hn;
        [|lia|]; cbn [shr]; intros [= <- <-]; cbn [shr_m];
        rewrite small_exponent by lia;
        unfold SFltb; cbn [SFcompare];
        destruct (Z.compare_spec (-52) E0); try reflexivity; lia.
Qed.

Lemma binary_round_aux_below_one (mz : positive) (e1 : Z) :
  (e1 <= fexp prec emax (Z.pos (digits2_pos mz) + e1))%Z ->
  (Z.pos (digits2_pos mz) + e1 <= 0)%Z ->
  SFltb (S754_finite false 4503599627370496 (-52))
        (binary_round_aux prec emax false (Z.pos mz) e1 loc_Exact) = false.
Proof.
  rewrite fexp_binary64. intros He1 Hsmall.
  pose proof (digits2_pos_bounds mz) as [_ Hup].
  set (dz := Z.pos (digits2_pos mz)) in *.
  set (E0 := Z.max (dz + e1 - 53) (-1074)) in *.
  unfold binary_round_aux.
  destruct (shr_fexp prec emax (Z.pos mz) e1 loc_Exact) as [mrs' e'] eqn:H1.
  destruct (shr_fexp prec emax _ e' loc_Exact) as [mrs'' e''] eqn:H2.
  assert (Hfirst : e' = E0 /\ (0 <= shr_m mrs' < 2 ^ 53)%Z).
  { revert H1. unfold shr_fexp. rewrite fexp_binary64.
    cbn [Zdigits2 shr_record_of_loc]. fold dz. fold E0.
    assert (Hmz : (Z.pos mz < 2 ^ 53 * 2 ^ (E0 - e1))%Z).
    { rewrite <- Z.pow_add_r by lia.
      apply Z.lt_le_trans with (1 := Hup). apply Z.pow_le_mono_r; lia. }
    destruct (E0 - e1)%Z as [|p|p] eqn:Hn; [| |lia]; cbn [shr]; intros [= <- <-].
    - cbn [shr_m]. split; [lia|]. change (2 ^ 0)%Z with 1%Z in Hmz. lia.
    - split; [lia|]. rewrite iter_shr_1 by (cbn; lia). cbn [shr_m].
      assert (Hp : (0 < 2 ^ Z.pos p)%Z) by (apply Z.pow_pos_nonneg; lia).
      split; [apply Z.div_pos; lia|].
      apply Z.div_lt_upper_bound; [exact Hp|]. lia. }
  destruct Hfirst as [-> Hm1].
  apply (renormalised_below_one
           (round_nearest_even (shr_m mrs') (loc_of_shr_record mrs')) E0 mrs'' e'');
    [| |exact H2].
  - destruct (round_nearest_even_step (shr_m mrs') (loc_of_shr_record mrs'))
      as [-> | ->]; lia.
  - unfold E0. lia.
Qed.

Lemma binary_round_below_one (mx : positive) (ex : Z) :
  (Z.pos mx < 2 ^ (- ex))%Z ->
  SFltb (S754_finite false 4503599627370496 (-52))
        (binary_round prec emax false mx ex) = false.
Proof.
  intros Hlt.
  pose proof (digits2_pos_bounds mx) as [Hlow _].
  assert (Hex : (0 <= - ex)%Z).
  { destruct (Z.le_gt_cases 0 (- ex)) as [|Hneg]; [assumption|].
    rewrite Z.pow_neg_r in Hlt by lia. lia. }
  assert (Hsmall : (Z.pos (digits2_pos mx) + ex <= 0)%Z).
  { destruct (Z.le_gt_cases (Z.pos (digits2_pos mx) + ex) 0) as [|Hgt]; [assumption|].
    exfalso.
    assert (2 ^ (- ex) <= 2 ^ (Z.pos (digits2_pos mx) - 1))%Z
      by (apply Z.pow_le_mono_r; lia).
    lia. }
  unfold binary_round, shl_align. rewrite fexp_binary64.
  destruct (Z.max (Z.pos (digits2_pos mx) + ex - 53) (-1074) - ex)%Z as [|k|k] eqn:Hk.
  - apply binary_round_aux_below_one; [rewrite fexp_binary64; lia|exact Hsmall].
  - apply binary_round_aux_below_one; [rewrite fexp_binary64; lia|exact Hsmall].
  - apply binary_round_aux_below_one; rewrite ?fexp_binary64, digits2_iter_xO; lia.
Qed.


Lemma aligned_one (ez : Z) :
  (ez <= -52)%Z ->
  Z.pos (fst (shl_align 4503599627370496 (-52) ez)) = (2 ^ (- ez))%Z.
Proof.
  intros Hez. unfold shl_align.
  destruct (ez - -52)%Z as [|k|k] eqn:Hk; [|lia|]; cbn [fst].
  - replace ez with (-52)%Z by lia. reflexivity.
  - rewrite iter_xO_value. change (Z.pos 4503599627370496) with (2 ^ 52)%Z.
    rewrite <- Z.pow_add_r by lia. f_equal. lia.
Qed.

(** [1 - q] is not above 1 when [q] is NaN or has a clear sign bit. *)
Lemma SFsub_one_not_above (q : spec_float) :
  signClear q = true ->
  SFltb (S754_finite false 4503599627370496 (-52))
        (SFsub prec emax (S754_finite false 4503599627370496 (-52)) q) = false.
Proof.
  destruct q as [[]|[]| |[] my ey]; cbn [signClear]; try discriminate;
    try reflexivity; intros _.
  cbn [SFsub cond_Zopp].
  assert (Hez : (Z.min (-52) ey <= -52)%Z) by lia.
  pose proof (aligned_one _ Hez) as Ha.
  set (ez := Z.min (-52) ey) in *.
  set (a := fst (shl_align 4503599627370496 (-52) ez)) in *.
  set (c := fst (shl_align my ey ez)).
  destruct (Z.pos a - Z.pos c)%Z as [|z|z] eqn:Hz; cbn [binary_normalize].
  - reflexivity.
  - apply binary_round_below_one. lia.
  - pose proof (binary_round_sign true z ez) as Hs.
    destruct (binary_round prec emax true z ez) as [s|s| |s mz e]; try subst s;
      reflexivity.
Qed.

(** *** The order is total away from NaN *)

Lemma SFleb_of_not_SFltb (x y : spec_float) :
  x <> S754_nan -> y <> S754_nan -> SFltb x y = false -> SFleb y x = true.
Proof.
  unfold SFltb, SFleb. intros Hx Hy.
  destruct x as [[]|[]| |[] m1 e1], y as [[]|[]| |[] m2 e2];
    try contradiction; cbn [SFcompare]; try discriminate; try reflexivity;
    change (Pos.compare_cont Eq) with Pos.compare;
    destruct (Z.compare_spec e1 e2), (Z.compare_spec e2 e1);
    try discriminate; try reflexivity; try lia;
    destruct (Pos.compare_spec m1 m2), (Pos.compare_spec m2 m1);
    cbn [CompOpp]; try discriminate; try reflexivity; lia.
Qed.

Lemma not_nan_Prim2SF (x : float) :
  PrimFloat.is_nan x = false -> Prim2SF x <> S754_nan.
Proof.
  unfold PrimFloat.is_nan. rewrite eqb_spec. intros Hx E. rewrite E in Hx.
  discriminate.
Qed.

Lemma leb_of_not_ltb (x y : float) :
  PrimFloat.is_nan x = false -> PrimFloat.is_nan y = false ->
  PrimFloat.ltb x y = false -> PrimFloat.leb y x = true.
Proof.
  intros Hx Hy. rewrite ltb_spec, leb_spec.
  apply SFleb_of_not_SFltb; apply not_nan_Prim2SF; assumption.
Qed.

(** *** Sums of squares *)

Lemma signClear_square (v : float) : signClear (Prim2SF (PrimFloat.mul v v)) = true.
Proof. rewrite mul_spec. apply signClear_SFmul_self. Qed.

Lemma signClear_fold_squares (g : DataPoint float -> float)
      (data : list (DataPoint float)) : forall acc : float,
  signClear (Prim2SF acc) = true ->
  signClear (Prim2SF (fold_left (fun acc p => add acc (pow2 (g p))) data acc)) = true.
Proof.
  induction data as [|p data IH]; intros acc Hacc; cbn [fold_left]; [exact Hacc|].
  apply IH. cbn [add pow2 Float64.number]. rewrite add_spec.
  apply signClear_SFadd; [exact Hacc|apply signClear_square].
Qed.

Lemma signClear_total_squares (g : DataPoint float -> float)
      (data : list (DataPoint float)) :
  signClear (Prim2SF (total (fun p => pow2 (g p)) data)) = true.
Proof. unfold total. apply signClear_fold_squares. reflexivity. Qed.

Lemma sub_one_not_above (q : float) :
  signClear (Prim2SF q) = true -> PrimFloat.ltb 1 (PrimFloat.sub 1 q) = false.
Proof.
  intros Hq. rewrite ltb_spec, sub_spec.
  change (Prim2SF 1) with (S754_finite false 4503599627370496 (-52)).
  apply SFsub_one_not_above, Hq.
Qed.

(** The coefficient of determination of the ordinary path is never above
    1. *)
Lemma olsR2_not_above_one (data : list (DataPoint float)) :
  PrimFloat.ltb 1 (olsR2 data) = false.
Proof.
  unfold olsR2.
  destruct (strictEq (totalSquares data) zero); [reflexivity|].
  cbn [sub div one Float64.number]. apply sub_one_not_above.
  rewrite div_spec. apply signClear_SFdiv.
  - unfold residualSquares. apply signClear_total_squares.
  - unfold totalSquares. apply signClear_total_squares.
Qed.

(** *** Addition commutes *)




(** *** A finite number minus itself *)

Lemma finite_Prim2SF (p : float) :
  PrimFloat.is_finite p = true ->
  match Prim2SF p with
  | S754_zero _ | S754_finite _ _ _ => True
  | _ => False
  end.
Proof.
  unfold PrimFloat.is_finite, PrimFloat.is_nan, PrimFloat.is_infinity.
  rewrite !eqb_spec, abs_spec.
  destruct (Prim2SF p) as [[]|[]| |[] mant e]; intros Hfin; try exact I;
    vm_compute in Hfin; discriminate.
Qed.

Lemma sub_self (p : float) :
  PrimFloat.is_finite p = true -> PrimFloat.sub p p = 0%float.
Proof.
  intros Hfin. apply finite_Prim2SF in Hfin.
  apply Prim2SF_inj. rewrite sub_spec.
  change (Prim2SF 0) with (S754_zero false).
  destruct (Prim2SF p) as [[]|[]| |s mant e]; try contradiction; try reflexivity.
  unfold SF64sub. cbn [SFsub]. cbv zeta. rewrite Z.sub_diag. reflexivity.
Qed.


(** Observations of one finite price, measured from that price, have a
    total sum of squares of [+0]. *)
Lemma fold_zero_squares (p : float) (data : list (DataPoint float)) :
  PrimFloat.is_finite p = true ->
  (forall d, In d data -> price d = p) ->
  fold_left (fun acc d => add acc (pow2 (sub (price d) p))) data 0%float = 0%float.
Proof.
  intros Hfin. induction data as [|d data IH]; intros Hall; [reflexivity|].
  cbn [fold_left]. rewrite (Hall d (or_introl eq_refl)).
  cbn [add sub pow2 Float64.number]. rewrite (sub_self p Hfin).
  change (PrimFloat.add 0 (PrimFloat.mul 0 0)) with 0%float.
  apply IH. intros d' Hd'. apply Hall. right. exact Hd'.
Qed.

(** A binary64 square root is NaN, a zero or positive. *)
Lemma sqrt_not_below_zero (x : float) : PrimFloat.ltb (PrimFloat.sqrt x) 0 = false.
Proof.
  rewrite ltb_spec, sqrt_spec.
  change (Prim2SF 0) with (S754_zero false).
  destruct (Prim2SF x) as [s|[|]| |[|] mant e]; try reflexivity.
  unfold SF64sqrt, SFsqrt.
  destruct (SFsqrt_core_binary prec emax (Z.pos mant) e) as [[mz ez] lz].
  pose proof (binary_round_aux_sign false mz ez lz) as Hs.
  destruct (binary_round_aux prec emax false mz ez lz) as [s|s| |s mq eq];
    try subst s; reflexivity.
Qed.

(** [-Infinity] is below every number. *)
Lemma neg_infinity_least (B : float) :
  PrimFloat.is_nan B = false -> PrimFloat.leb neg_infinity B = true.
Proof.
  intros HB. apply not_nan_Prim2SF in HB. rewrite leb_spec.
  change (Prim2SF neg_infinity) with (S754_infinity true).
  destruct (Prim2SF B) as [[]|[]| |[] mant e]; try contradiction; reflexivity.
Qed.

End Float64Order.

(** * The claims *)

(** ** C1: the closed form *)




(** ** C2: too few observations *)

(** C2.  An input of fewer than two observations makes
    [calculateRegression] throw the error "Insufficient data points".  The
    statement holds for every arithmetic, whatever its operations do: the
    outcome is fixed by the length alone, before any sum is formed. *)
Theorem calculateRegression_insufficient_data {num : Type} `{Number num}
        (data : list (DataPoint num)) :
  (List.length data < 2)%nat ->
  calculateRegression data = Throw (Error "Insufficient data points").
Proof.
  intros Hlen. unfold calculateRegression.
  destruct (List.length data <? 2)%nat eqn:Hguard.
  - reflexivity.
  - apply Nat.ltb_ge in Hguard. lia.
Qed.

Lemma calculateRegression_insufficient_data_witness :
  (List.length Samples.lonely < 2)%nat
  /\ calculateRegression Samples.lonely = Throw (Error "Insufficient data points").
Proof.
  split; [simpl; lia|].
  apply (calculateRegression_insufficient_data Samples.lonely). simpl; lia.
Defined.

(** ** C3: the vertical-line sentinel *)

(** C3, at the failing input.  The three observations of [vertical07] all
    have the area 0.7, but in binary64 [3 * (0.7*0.7 + 0.7*0.7 + 0.7*0.7)] and
    [(0.7 + 0.7 + 0.7)^2] round differently: the denominator is [2^-50], not
    0, and the function returns an ordinary fit, with the slope 256, instead
    of the sentinel.  Likewise for three houses of 72.4 square units, where
    the denominator is [2^-37].  The example of the specification, area 5,
    does give the sentinel. *)
Theorem sameArea_not_sentinel :
  sameArea Samples.vertical07
  /\ olsDenominator Samples.vertical07 = 0x1p-50%float
  /\ calculateRegression Samples.vertical07
     = Return {| m := 256%float; b := 20.800000000000029%float; r2 := 0%float;
                 rmse := 81.649658092772611%float;
                 equation := "y = 256.0000x + 20.80" |}
  /\ sameArea Samples.verticalHouses
  /\ olsDenominator Samples.verticalHouses = 0x1p-37%float
  /\ calculateRegression Samples.verticalHouses
     = Return {| m := 0%float; b := 260000%float; r2 := 0%float;
                 rmse := 8164.9658092772597%float;
                 equation := "y = 0.0000x + 260000.00" |}
  /\ calculateRegression Samples.vertical5 = Return verticalLine.
Proof.
  assert (Hsame : forall x y1 y2 y3,
             sameArea [Float64.point x y1; Float64.point x y2; Float64.point x y3]).
  { intros x y1 y2 y3 p q Hp Hq. cbn in Hp, Hq.
    repeat (destruct Hp as [<-|Hp]; [|]); try contradiction;
      repeat (destruct Hq as [<-|Hq]; [|]); try contradiction; reflexivity. }
  split; [apply Hsame|].
  split; [vm_compute; reflexivity|].
  split; [vm_compute; reflexivity|].
  split; [apply Hsame|].
  split; [vm_compute; reflexivity|].
  split; [vm_compute; reflexivity|].
  exact Float64Facts.vertical5_result.
Qed.

(** ** C4: the coefficient of determination *)

(** C4 (amended).  On the ordinary path [r2] is [0] when the total sum of
    squares that the code computes is [=== 0], and [1 - ssRes/ssTot]
    otherwise, with nothing applied afterwards, in every arithmetic.  In
    binary64, observations that share one finite price have [r2 = 0]
    whenever the mean that the code computes, [sumY / n], is that price: the
    deviations are then [+0] and so is their sum of squares.  So it is with
    the price 50 over the areas 1, 2, 3.  A negative value is returned as
    computed: the three observations of [crowded] give
    [r2 = -1399219699198161]. *)
Theorem r2_unclamped :
  (forall (num : Type) (N : Number num) (data : list (DataPoint num))
          (r : RegressionResult num),
      calculateRegression data = Return r ->
      strictEq (olsDenominator data) zero = false ->
      r2 r = if strictEq (totalSquares data) zero then zero
             else sub one (div (residualSquares data) (totalSquares data)))
  /\ (forall (data : list (DataPoint float)) (r : RegressionResult float)
             (p : float),
         calculateRegression data = Return r ->
         (forall d, In d data -> price d = p) ->
         PrimFloat.is_finite p = true ->
         meanPrice data = p ->
         r2 r = 0%float)
  /\ (exists r, calculateRegression Samples.flat50 = Return r
                /\ totalSquares Samples.flat50 = 0%float
                /\ r2 r = 0%float)
  /\ (exists r, calculateRegression Samples.crowded = Return r
                /\ r2 r = (-1399219699198161)%float).
Proof.
  split; [|split; [|split]].
  - intros num N data r Hr HD.
    destruct (calculateRegression_returned data r Hr) as [_ [[HD' _]|[_ ->]]].
    + congruence.
    + reflexivity.
  - intros data r p Hr Hall Hfin Hmean.
    destruct (calculateRegression_returned data r Hr) as [_ [[_ ->]|[_ ->]]].
    + reflexivity.
    + cbn [r2 olsResult]. unfold olsR2.
      replace (totalSquares data) with 0%float; [reflexivity|].
      symmetry. unfold totalSquares, total. rewrite Hmean.
      apply (Float64Order.fold_zero_squares p data Hfin Hall).
  - eexists. split; [exact Float64Facts.flat50_result|].
    split; vm_compute; reflexivity.
  - eexists. split; vm_compute; reflexivity.
Qed.

Lemma r2_unclamped_witness :
  (calculateRegression Samples.flatTenth = Return (olsResult Samples.flatTenth)
   /\ strictEq (olsDenominator Samples.flatTenth) zero = false
   /\ r2 (olsResult Samples.flatTenth)
      = if strictEq (totalSquares Samples.flatTenth) zero then zero
        else sub one (div (residualSquares Samples.flatTenth)
                          (totalSquares Samples.flatTenth)))
  /\ (calculateRegression Samples.flat50 = Return (olsResult Samples.flat50)
      /\ (forall d, In d Samples.flat50 -> price d = 50%float)
      /\ PrimFloat.is_finite 50 = true
      /\ meanPrice Samples.flat50 = 50%float
      /\ r2 (olsResult Samples.flat50) = 0%float).
Proof.
  assert (Hr : calculateRegression Samples.flatTenth
               = Return (olsResult Samples.flatTenth))
    by (vm_compute; reflexivity).
  assert (HD : strictEq (olsDenominator Samples.flatTenth) zero = false)
    by (vm_compute; reflexivity).
  assert (Hr50 : calculateRegression Samples.flat50
                 = Return (olsResult Samples.flat50))
    by (vm_compute; reflexivity).
  assert (Hall : forall d, In d Samples.flat50 -> price d = 50%float)
    by (intros d [<-|[<-|[<-|[]]]]; reflexivity).
  assert (Hfin : PrimFloat.is_finite 50 = true) by (vm_compute; reflexivity).
  assert (Hmean : meanPrice Samples.flat50 = 50%float) by (vm_compute; reflexivity).
  split.
  - split; [exact Hr|]. split; [exact HD|].
    exact (proj1 r2_unclamped float Float64.number Samples.flatTenth
                 (olsResult Samples.flatTenth) Hr HD).
  - split; [exact Hr50|]. split; [exact Hall|]. split; [exact Hfin|].
    split; [exact Hmean|].
    exact (proj1 (proj2 r2_unclamped) Samples.flat50 (olsResult Samples.flat50)
                 50%float Hr50 Hall Hfin Hmean).
Defined.

(** C4 as first stated fails of the program: identical prices do not make
    the computed total sum of squares 0.  Six observations of the price 0.1
    over the areas 1 to 6, all accepted by the validators of the page, have
    the computed mean 0.09999999999999999; the total sum of squares is not
    [=== 0], and [r2] is not 0 but about -4.17. *)
Lemma identical_prices_r2_negative :
  samePrice Samples.flatTenth
  /\ (forall p, In p Samples.flatTenth ->
        Page.validateArea (area p) = None /\ Page.validatePrice (price p) = None)
  /\ strictEq (totalSquares Samples.flatTenth) zero = false
  /\ exists r, calculateRegression Samples.flatTenth = Return r
               /\ r2 r = (-4.166666666666667)%float
               /\ PrimFloat.eqb (r2 r) 0 = false
               /\ PrimFloat.ltb (r2 r) 0 = true.
Proof.
  split; [|split; [|split]].
  - intros p q Hp Hq. cbn in Hp, Hq.
    repeat (destruct Hp as [<-|Hp]; [|]); try contradiction;
      repeat (destruct Hq as [<-|Hq]; [|]); try contradiction; reflexivity.
  - intros p Hp. cbn in Hp.
    repeat (destruct Hp as [<-|Hp]; [split; vm_compute; reflexivity|]).
    contradiction.
  - vm_compute. reflexivity.
  - eexists. split; [vm_compute; reflexivity|].
    repeat split; vm_compute; reflexivity.
Qed.

(** ** C5: no other failure *)

(** C5.  From two observations on, [calculateRegression] returns: either
    the vertical-line sentinel or the result of the ordinary path.  Neither
    the divisions nor the two [toFixed] calls (digit counts 4 and 2) can
    throw. *)
Theorem calculateRegression_never_fails {num : Type} `{Number num}
        (data : list (DataPoint num)) :
  (2 <= List.length data)%nat ->
  exists r, calculateRegression data = Return r
            /\ (r = verticalLine \/ r = olsResult data).
Proof.
  intros Hlen. rewrite (calculateRegression_cases data Hlen).
  destruct (strictEq (olsDenominator data) zero).
  - exists verticalLine. split; [reflexivity|left; reflexivity].
  - exists (olsResult data). split; [reflexivity|right; reflexivity].
Qed.

Lemma calculateRegression_never_fails_witness :
  (2 <= List.length Samples.vertical5)%nat
  /\ exists r, calculateRegression Samples.vertical5 = Return r
               /\ (r = verticalLine \/ r = olsResult Samples.vertical5).
Proof.
  split; [simpl; lia|].
  apply (calculateRegression_never_fails Samples.vertical5). simpl; lia.
Defined.

(** ** C6: the order of the observations *)



(** ** C7: prediction *)

(** C7.  [predictPrice x m b] is [m * x + b] in every arithmetic; it is a
    total function of three numbers, with no check on [x] (a negative area
    is accepted like any other).  In binary64: [predictPrice 10 2 3] is 23;
    the fit of (50,100000), (100,200000), (150,300000) has slope 2000,
    intercept 0, r2 1 and rmse 0, and predicts 150000 for the area 75; an
    infinite or NaN area yields an infinite or NaN prediction. *)
Theorem predictPrice_line :
  (forall (num : Type) (N : Number num) (x m b : num),
      predictPrice x m b = add (mul m x) b)
  /\ predictPrice 10%float 2%float 3%float = 23%float
  /\ predictPrice (-5)%float 2%float 3%float = (-7)%float
  /\ (exists r, calculateRegression Samples.houses = Return r
                /\ m r = 2000%float /\ b r = 0%float
                /\ r2 r = 1%float /\ rmse r = 0%float
                /\ equation r = "y = 2000.0000x + 0.00"
                /\ predictPrice 75%float (m r) (b r) = 150000%float)
  /\ predictPrice infinity 2%float 3%float = infinity
  /\ PrimFloat.is_nan (predictPrice nan 2%float 3%float) = true.
Proof.
  split; [intros; reflexivity|].
  split; [vm_compute; reflexivity|].
  split; [vm_compute; reflexivity|].
  split.
  - eexists. split; [exact Float64Facts.houses_result|].
    repeat split; vm_compute; reflexivity.
  - split; vm_compute; reflexivity.
Qed.

(** ** C8: the equation text *)

(** C8 (amended).  In a successful fit on the ordinary path (binary64), if
    slope and intercept are finite and below [10^21] in magnitude, the
    equation is ["y = "], the slope, ["x + "], the intercept, where the slope
    is in fixed-point notation with exactly 4 decimal places and the
    intercept with exactly 2: an optional minus sign, digits, a point, and 4
    (or 2) digits, denoting the multiple of [10^-4] (or [10^-2]) closest to
    the value. *)
Theorem equation_fixed_point (data : list (DataPoint float))
        (r : RegressionResult float) :
  calculateRegression data = Return r ->
  strictEq (olsDenominator data) zero = false ->
  fixedRange (m r) = true ->
  fixedRange (b r) = true ->
  exists slopeText interceptText,
    equation r = "y = " ++ slopeText ++ "x + " ++ interceptText
    /\ rendersFixed 4 (m r) slopeText
    /\ rendersFixed 2 (b r) interceptText.
Proof.
  intros Hr HD Hm Hb.
  destruct (calculateRegression_returned data r Hr) as [_ [[HD' _]|[_ ->]]];
    [congruence|].
  cbn [m b equation olsResult] in *.
  exists (Float64.toFixedText (olsSlope data) 4),
         (Float64.toFixedText (olsIntercept data) 2).
  split; [reflexivity|].
  split; apply Float64Facts.toFixedText_fixed; (assumption || discriminate).
Qed.

Lemma equation_fixed_point_witness :
  calculateRegression Samples.houses = Return Samples.housesFit
  /\ strictEq (olsDenominator Samples.houses) zero = false
  /\ fixedRange (m Samples.housesFit) = true
  /\ fixedRange (b Samples.housesFit) = true
  /\ exists slopeText interceptText,
      equation Samples.housesFit = "y = " ++ slopeText ++ "x + " ++ interceptText
      /\ rendersFixed 4 (m Samples.housesFit) slopeText
      /\ rendersFixed 2 (b Samples.housesFit) interceptText.
Proof.
  assert (Hr : calculateRegression Samples.houses = Return Samples.housesFit)
    by (vm_compute; reflexivity).
  assert (HD : strictEq (olsDenominator Samples.houses) zero = false)
    by (vm_compute; reflexivity).
  assert (Hm : fixedRange (m Samples.housesFit) = true) by (vm_compute; reflexivity).
  assert (Hb : fixedRange (b Samples.housesFit) = true) by (vm_compute; reflexivity).
  repeat (split; [assumption|]).
  exact (equation_fixed_point Samples.houses Samples.housesFit Hr HD Hm Hb).
Defined.

(** C8 as first stated fails: the fit of (0,0) and (1,10^21) is on the
    ordinary path, with slope [10^21], and [toFixed] renders that slope as
    ["1e+21"], in scientific notation and without decimal places. *)
Lemma steep_equation_scientific :
  exists r,
    calculateRegression Samples.steep = Return r
    /\ strictEq (olsDenominator Samples.steep) zero = false
    /\ equation r = "y = 1e+21x + 0.00"
    /\ ~ (exists slopeText interceptText,
             equation r = "y = " ++ slopeText ++ "x + " ++ interceptText
             /\ rendersFixed 4 (m r) slopeText
             /\ rendersFixed 2 (b r) interceptText).
Proof.
  eexists. split; [exact Float64Facts.steep_result|].
  split; [vm_compute; reflexivity|]. split; [reflexivity|].
  cbn [equation m b].
  intros (slopeText & interceptText & Heq & Hslope & _).
  destruct Hslope as (sign & whole & fraction & -> & Hsign & Hne & Hw & _).
  destruct Hsign as [[-> _]|[-> _]]; [cbn in Heq; discriminate|].
  destruct whole as [|c1 [|c2 whole]]; [contradiction| |]; cbn in Heq.
  - discriminate Heq.
  - inversion Heq; subst. cbn in Hw. discriminate Hw.
Qed.

(** ** C9: the identifiers *)

Section Identifiers.
Context {num : Type} `{Number num}.

Lemma sameObservations_length (data data' : list (DataPoint num)) :
  sameObservations data data' -> List.length data = List.length data'.
Proof. intros Hsame. induction Hsame; cbn; congruence. Qed.

Lemma sameObservations_fold_addPoint (data data' : list (DataPoint num)) :
  sameObservations data data' ->
  forall s, fold_left addPoint data s = fold_left addPoint data' s.
Proof.
  intros Hsame. induction Hsame as [|p q data data' [Ha Hp] _ IH]; intros s.
  - reflexivity.
  - cbn [fold_left]. unfold addPoint at 2 4. rewrite Ha, Hp. apply IH.
Qed.

Lemma sameObservations_fold_addSquares (m b meanY : num)
      (data data' : list (DataPoint num)) :
  sameObservations data data' ->
  forall q, fold_left (addSquares m b meanY) data q
            = fold_left (addSquares m b meanY) data' q.
Proof.
  intros Hsame. induction Hsame as [|p q data data' [Ha Hp] _ IH]; intros s.
  - reflexivity.
  - cbn [fold_left]. unfold addSquares at 2 4. rewrite Ha, Hp. apply IH.
Qed.

(** C9.  The [id] of an observation never reaches the result: two inputs
    that agree on area and price at every position give the same outcome,
    in all of [m], [b], [r2], [rmse] and [equation]. *)
Theorem calculateRegression_ignores_id (data data' : list (DataPoint num)) :
  sameObservations data data' ->
  calculateRegression data = calculateRegression data'.
Proof.
  intros Hsame. unfold calculateRegression, accumulate, accumulateSquares.
  rewrite (sameObservations_length _ _ Hsame).
  rewrite (sameObservations_fold_addPoint _ _ Hsame).
  destruct (List.length data' <? 2)%nat; [reflexivity|].
  cbv zeta.
  rewrite (sameObservations_fold_addSquares _ _ _ _ _ Hsame).
  reflexivity.
Qed.

End Identifiers.

Lemma calculateRegression_ignores_id_witness :
  sameObservations Samples.named Samples.houses
  /\ calculateRegression Samples.named = calculateRegression Samples.houses.
Proof.
  assert (Hsame : sameObservations Samples.named Samples.houses)
    by (repeat constructor).
  split; [exact Hsame|].
  apply (calculateRegression_ignores_id Samples.named Samples.houses Hsame).
Defined.

(** ** C10: bounds on the quality measures *)

(** C10 (amended).  In binary64, whatever the observations, a returned
    result has an [r2] that is not above 1 and an rmse that is not below 0:
    [1 < r2] and [rmse < 0] are false.  Either value can be NaN; when it is
    not, [r2 <= 1] and [0 <= rmse] hold.  There is no lower bound on [r2]:
    three observations that the validators of the page accept give
    [r2 = -1399219699198161], and the same with the price scaled give
    [-Infinity], which is below every number. *)
Theorem r2_rmse_bounds :
  (forall (data : list (DataPoint float)) (r : RegressionResult float),
      calculateRegression data = Return r ->
      PrimFloat.ltb 1 (r2 r) = false
      /\ PrimFloat.ltb (rmse r) 0 = false
      /\ (PrimFloat.is_nan (r2 r) = false -> PrimFloat.leb (r2 r) 1 = true)
      /\ (PrimFloat.is_nan (rmse r) = false -> PrimFloat.leb 0 (rmse r) = true))
  /\ (exists r, calculateRegression Samples.crowded = Return r
                /\ (forall p, In p Samples.crowded ->
                      Page.validateArea (area p) = None
                      /\ Page.validatePrice (price p) = None)
                /\ r2 r = (-1399219699198161)%float)
  /\ (forall B : float,
         PrimFloat.is_nan B = false ->
         exists r, calculateRegression Samples.crowdedScaled = Return r
                   /\ r2 r = neg_infinity
                   /\ PrimFloat.leb (r2 r) B = true).
Proof.
  split; [|split].
  - intros data r Hr.
    assert (Hr2 : PrimFloat.ltb 1 (r2 r) = false).
    { destruct (calculateRegression_returned data r Hr) as [_ [[_ ->]|[_ ->]]].
      - reflexivity.
      - cbn [r2 olsResult]. apply Float64Order.olsR2_not_above_one. }
    assert (Hrmse : PrimFloat.ltb (rmse r) 0 = false).
    { destruct (calculateRegression_returned data r Hr) as [_ [[_ ->]|[_ ->]]].
      - reflexivity.
      - cbn [rmse olsResult]. unfold olsRmse.
        apply Float64Order.sqrt_not_below_zero. }
    split; [exact Hr2|]. split; [exact Hrmse|]. split.
    + intros Hnan. apply Float64Order.leb_of_not_ltb; [reflexivity|exact Hnan|exact Hr2].
    + intros Hnan. apply Float64Order.leb_of_not_ltb; [exact Hnan|reflexivity|exact Hrmse].
  - eexists. split; [vm_compute; reflexivity|]. split; [|vm_compute; reflexivity].
    intros p [<-|[<-|[<-|[]]]]; split; vm_compute; reflexivity.
  - intros B HB. eexists. split; [vm_compute; reflexivity|].
    split; [reflexivity|]. cbn [r2]. apply Float64Order.neg_infinity_least, HB.
Qed.

Lemma r2_rmse_bounds_witness :
  calculateRegression Samples.flatTenth = Return (olsResult Samples.flatTenth)
  /\ PrimFloat.ltb 1 (r2 (olsResult Samples.flatTenth)) = false
  /\ PrimFloat.ltb (rmse (olsResult Samples.flatTenth)) 0 = false
  /\ (PrimFloat.is_nan (r2 (olsResult Samples.flatTenth)) = false ->
      PrimFloat.leb (r2 (olsResult Samples.flatTenth)) 1 = true)
  /\ (PrimFloat.is_nan (rmse (olsResult Samples.flatTenth)) = false ->
      PrimFloat.leb 0 (rmse (olsResult Samples.flatTenth)) = true).
Proof.
  assert (Hr : calculateRegression Samples.flatTenth
               = Return (olsResult Samples.flatTenth))
    by (vm_compute; reflexivity).
  split; [exact Hr|].
  exact (proj1 r2_rmse_bounds Samples.flatTenth (olsResult Samples.flatTenth) Hr).
Defined.

(** C10 as first stated fails of the program: [r2 <= 1] and [rmse >= 0] do
    not hold for every input of two observations or more.  For (0,0) and
    (1,1e308) the slope overflows, [r2] and rmse are NaN, and both
    comparisons are false. *)
Lemma overflow_r2_rmse_nan :
  (2 <= List.length Samples.overflowing)%nat
  /\ exists r, calculateRegression Samples.overflowing = Return r
               /\ PrimFloat.is_nan (r2 r) = true
               /\ PrimFloat.is_nan (rmse r) = true
               /\ PrimFloat.leb (r2 r) 1 = false
               /\ PrimFloat.leb 0 (rmse r) = false.
Proof.
  split; [simpl; lia|].
  eexists. split; [vm_compute; reflexivity|].
  repeat split; vm_compute; reflexivity.
Qed.

(** * Further properties *)

(** ** The residual plot and the rmse *)

Lemma fold_left_over_map {A B C : Type} (f : A -> B -> A) (g : C -> B)
      (l : list C) (a : A) :
  fold_left f (map g l) a = fold_left (fun acc x => f acc (g x)) l a.
Proof. revert a; induction l as [|x l IH]; intros a; cbn; [reflexivity|apply IH]. Qed.

(** X6.  In every arithmetic, the rmse of a model returned on the ordinary
    path (denominator not [=== 0]) is the square root of the mean of the
    squares of the residuals that the page plots for that model, added up
    from 0 in the order of the observations. *)
Theorem rmse_of_residuals {num : Type} `{Number num}
        (data : list (DataPoint num)) (r : RegressionResult num) :
  calculateRegression data = Return r ->
  strictEq (olsDenominator data) zero = false ->
  rmse r = sqrt (div (fold_left (fun acc q => add acc (pow2 (residual q)))
                                (residuals (Some r) data) zero)
                     (ofLength (List.length data))).
Proof.
  intros Hr HD.
  destruct (calculateRegression_returned data r Hr) as [_ [[HD' _]|[_ ->]]];
    [congruence|].
  unfold residuals. rewrite fold_left_over_map. reflexivity.
Qed.

Lemma rmse_of_residuals_witness :
  calculateRegression Samples.houses = Return Samples.housesFit
  /\ strictEq (olsDenominator Samples.houses) zero = false
  /\ rmse Samples.housesFit
     = sqrt (div (fold_left (fun acc q => add acc (pow2 (residual q)))
                            (residuals (Some Samples.housesFit) Samples.houses) zero)
                 (ofLength (List.length Samples.houses))).
Proof.
  assert (HD : strictEq (olsDenominator Samples.houses) zero = false)
    by (vm_compute; reflexivity).
  split; [exact Float64Facts.houses_result|]. split; [exact HD|].
  exact (rmse_of_residuals Samples.houses Samples.housesFit
                           Float64Facts.houses_result HD).
Defined.

(** A binary64 square root is never below zero: it is NaN, a zero or
    positive. *)
Lemma sqrt_not_negative (x : float) : PrimFloat.ltb (PrimFloat.sqrt x) 0 = false.
Proof.
  rewrite ltb_spec, sqrt_spec.
  change (Prim2SF 0) with (S754_zero false).
  destruct (Prim2SF x) as [s|[|]| |[|] mant e]; try reflexivity.
  unfold SF64sqrt, SFsqrt.
  destruct (SFsqrt_core_binary prec emax (Z.pos mant) e) as [[mz ez] lz].
  unfold binary_round_aux.
  destruct (shr_fexp prec emax mz ez lz) as [mrs' e'].
  destruct (shr_fexp prec emax _ e' loc_Exact) as [mrs'' e''].
  destruct (shr_m mrs''); try reflexivity.
  destruct (Z.leb e'' (emax - prec)); reflexivity.
Qed.

(** X7.  In binary64 the rmse of a returned model is never less than 0,
    whatever the observations (it can be NaN, which compares false). *)
Theorem rmse_not_negative (data : list (DataPoint float)) (r : RegressionResult float) :
  calculateRegression data = Return r ->
  PrimFloat.ltb (rmse r) 0 = false.
Proof.
  intros Hr.
  destruct (calculateRegression_returned data r Hr) as [_ [[_ ->]|[_ ->]]].
  - reflexivity.
  - cbn [rmse olsResult]. unfold olsRmse. apply sqrt_not_negative.
Qed.

Lemma rmse_not_negative_witness :
  calculateRegression Samples.tenths
  = Return (olsResult Samples.tenths)
  /\ PrimFloat.ltb (rmse (olsResult Samples.tenths)) 0 = false.
Proof.
  assert (Hr : calculateRegression Samples.tenths = Return (olsResult Samples.tenths))
    by (vm_compute; reflexivity).
  split; [exact Hr|].
  exact (rmse_not_negative Samples.tenths (olsResult Samples.tenths) Hr).
Defined.

(** ** The page *)

Module PageFacts.
Import Page.

(** *** Cleaning the input text *)

Lemma trimStart_whitespace (s : text) :
  forallb isWhiteSpace s = true -> trimStart s = [].
Proof.
  induction s as [|c s IH]; cbn; [reflexivity|].
  intros Hall. apply andb_true_iff in Hall as [Hc Hs]. rewrite Hc. apply IH, Hs.
Qed.

Lemma trim_whitespace (s : text) : forallb isWhiteSpace s = true -> trim s = [].
Proof.
  intros Hall. unfold trim. rewrite (trimStart_whitespace s Hall). reflexivity.
Qed.

Lemma removeCommas_blank (v : text) :
  blank v -> forallb isWhiteSpace (removeCommas v) = true.
Proof.
  unfold blank, removeCommas. intros Hblank. apply forallb_forall.
  intros c Hc. apply filter_In in Hc as [Hin Hnot].
  destruct (Hblank c Hin) as [Hws | ->]; [exact Hws|discriminate].
Qed.

Lemma removeCommas_comma (s1 s2 : text) :
  removeCommas (s1 ++ 44%N :: s2)%list = removeCommas (s1 ++ s2)%list.
Proof. unfold removeCommas. rewrite !filter_app. reflexivity. Qed.

Lemma trimStart_padding (ws s : text) :
  forallb isWhiteSpace ws = true -> trimStart (ws ++ s)%list = trimStart s.
Proof.
  induction ws as [|c ws IH]; cbn; [reflexivity|].
  intros Hall. apply andb_true_iff in Hall as [Hc Hws]. rewrite Hc. apply IH, Hws.
Qed.

Lemma forallb_rev {A : Type} (f : A -> bool) (l : list A) :
  forallb f l = true -> forallb f (rev l) = true.
Proof.
  rewrite !forallb_forall. intros Hall x Hx. apply Hall, in_rev, Hx.
Qed.

Lemma trimEnd_padding (s ws : text) :
  forallb isWhiteSpace ws = true -> trimEnd (s ++ ws)%list = trimEnd s.
Proof.
  intros Hall. unfold trimEnd. rewrite rev_app_distr.
  rewrite (trimStart_padding _ _ (forallb_rev _ _ Hall)). reflexivity.
Qed.

Lemma trim_padding (l s r : text) :
  forallb isWhiteSpace l = true -> forallb isWhiteSpace r = true ->
  trim (l ++ s ++ r)%list = trim s.
Proof.
  intros Hl Hr. unfold trim. rewrite (trimStart_padding l _ Hl). clear l Hl.
  induction s as [|c s IH].
  - cbn [app]. rewrite (trimStart_whitespace r Hr). reflexivity.
  - cbn [app trimStart]. destruct (isWhiteSpace c); [exact IH|].
    apply (trimEnd_padding (c :: s) r Hr).
Qed.

(** *** Validation *)

Lemma validateArea_truthy (a : float) :
  truthy (validateArea a) = false -> validateArea a = None.
Proof.
  unfold validateArea.
  destruct (negb (PrimFloat.is_finite a)); [discriminate|].
  destruct (PrimFloat.leb a 0); [discriminate|].
  destruct (PrimFloat.ltb 10000 a); [discriminate|reflexivity].
Qed.

Lemma validatePrice_truthy (p : float) :
  truthy (validatePrice p) = false -> validatePrice p = None.
Proof.
  unfold validatePrice.
  destruct (negb (PrimFloat.is_finite p)); [discriminate|].
  destruct (PrimFloat.leb p 0); [discriminate|].
  destruct (PrimFloat.ltb 100000000 p); [discriminate|reflexivity].
Qed.

Lemma validateArea_message (a : float) (s : string) :
  validateArea a = Some s -> truthy (Some s) = true.
Proof.
  unfold validateArea.
  destruct (negb _); [intros [= <-]; reflexivity|].
  destruct (PrimFloat.leb a 0); [intros [= <-]; reflexivity|].
  destruct (PrimFloat.ltb 10000 a); [intros [= <-]; reflexivity|discriminate].
Qed.

Lemma validatePrice_message (p : float) (s : string) :
  validatePrice p = Some s -> truthy (Some s) = true.
Proof.
  unfold validatePrice.
  destruct (negb _); [intros [= <-]; reflexivity|].
  destruct (PrimFloat.leb p 0); [intros [= <-]; reflexivity|].
  destruct (PrimFloat.ltb 100000000 p); [intros [= <-]; reflexivity|discriminate].
Qed.

(** What [validateArea] accepts is a positive finite number. *)
Lemma validateArea_positive (a : float) :
  validateArea a = None -> positiveFinite a = true.
Proof.
  unfold validateArea.
  destruct (PrimFloat.is_finite a) eqn:Hfin; cbn [negb]; [|discriminate].
  destruct (PrimFloat.leb a 0) eqn:Hle; [discriminate|]. intros _.
  unfold PrimFloat.is_finite, PrimFloat.is_nan, PrimFloat.is_infinity in Hfin.
  rewrite !eqb_spec, abs_spec in Hfin. rewrite leb_spec in Hle.
  unfold positiveFinite.
  destruct (Prim2SF a) as [[]|[]| |[] mant e]; try reflexivity;
    try (vm_compute in Hfin; discriminate); try (vm_compute in Hle; discriminate).
Qed.

(** X8.  The model that [calculateRegression] returns for a zero
    denominator (slope 0, intercept 0) predicts the price 0 for every area
    that [validateArea] accepts. *)
Theorem vertical_model_predicts_zero (a : float) :
  validateArea a = None ->
  predictPrice a (m (@verticalLine float _)) (b (@verticalLine float _)) = 0%float.
Proof.
  intros Hvalid. apply validateArea_positive in Hvalid.
  unfold predictPrice. cbn [m b verticalLine zero add mul Float64.number].
  assert (Hmul : PrimFloat.mul 0 a = 0%float).
  { apply Prim2SF_inj. rewrite mul_spec. unfold positiveFinite in Hvalid.
    change (Prim2SF 0) with (S754_zero false).
    destruct (Prim2SF a) as [| | |[] mant e]; try discriminate. reflexivity. }
  rewrite Hmul. reflexivity.
Qed.

Lemma vertical_model_predicts_zero_witness :
  validateArea 120 = None
  /\ predictPrice 120%float (m (@verticalLine float _)) (b (@verticalLine float _))
     = 0%float.
Proof.
  assert (Hvalid : validateArea 120 = None) by (vm_compute; reflexivity).
  split; [exact Hvalid|].
  exact (vertical_model_predicts_zero 120 Hvalid).
Defined.

(** *** The order of positive numbers *)

Lemma SFleb_total (x y : spec_float) :
  comparable x = true -> comparable y = true ->
  SFltb x y = false -> SFleb y x = true.
Proof.
  unfold SFltb, SFleb.
  destruct x as [[]|[]| |[] m1 e1], y as [[]|[]| |[] m2 e2];
    cbn; try discriminate; try reflexivity; intros _ _.
  change (Pos.compare_cont Eq) with Pos.compare.
  destruct (Z.compare_spec e1 e2), (Z.compare_spec e2 e1);
    try discriminate; try reflexivity; try lia;
    destruct (Pos.compare_spec m1 m2), (Pos.compare_spec m2 m1);
    try discriminate; try reflexivity; lia.
Qed.

Lemma SFltb_SFleb (x y : spec_float) : SFltb x y = true -> SFleb x y = true.
Proof.
  unfold SFltb, SFleb. destruct (SFcompare x y) as [[]|]; try discriminate; reflexivity.
Qed.

Lemma SFleb_trans (x y z : spec_float) :
  comparable x = true -> comparable y = true -> comparable z = true ->
  SFleb x y = true -> SFleb y z = true -> SFleb x z = true.
Proof.
  unfold SFleb.
  destruct x as [[]|[]| |[] m1 e1], y as [[]|[]| |[] m2 e2], z as [[]|[]| |[] m3 e3];
    cbn; try discriminate; try reflexivity; intros _ _ _.
  destruct (Z.compare_spec e1 e2), (Z.compare_spec e2 e3), (Z.compare_spec e1 e3);
    try discriminate; try reflexivity; try lia; subst;
    change (Pos.compare_cont Eq) with Pos.compare;
    repeat match goal with
           | |- context [(?p ?= ?q)%positive] => destruct (Pos.compare_spec p q)
           end; try discriminate; try reflexivity; try lia; subst; try lia.
Qed.

Lemma SFleb_refl (x : spec_float) : comparable x = true -> SFleb x x = true.
Proof.
  unfold SFleb. destruct x as [[]|[]| |[] m1 e1]; cbn; try discriminate; try reflexivity.
  intros _. rewrite Z.compare_refl. change (Pos.compare_cont Eq) with Pos.compare.
  rewrite Pos.compare_refl. reflexivity.
Qed.

Lemma positiveFinite_comparable (x : float) :
  positiveFinite x = true -> comparable (Prim2SF x) = true.
Proof.
  unfold positiveFinite. destruct (Prim2SF x) as [| | |[] ? ?]; try discriminate.
  reflexivity.
Qed.

Lemma positiveFinite_not_nan (x : float) :
  positiveFinite x = true -> PrimFloat.is_nan x = false.
Proof.
  unfold positiveFinite, PrimFloat.is_nan. rewrite eqb_spec.
  destruct (Prim2SF x) as [| | |[] mant e]; try discriminate. intros _.
  unfold SFeqb. cbn. rewrite Z.compare_refl.
  change (Pos.compare_cont Eq) with Pos.compare. rewrite Pos.compare_refl.
  reflexivity.
Qed.

Lemma positiveFinite_not_zero (x : float) :
  positiveFinite x = true -> PrimFloat.is_zero x = false.
Proof.
  unfold positiveFinite, PrimFloat.is_zero. rewrite eqb_spec.
  destruct (Prim2SF x) as [| | |[] mant e]; try discriminate. intros _.
  reflexivity.
Qed.

(** *** [Math.min] and [Math.max] over positive numbers *)

Lemma minFrom_least (xs : list float) : forall lowest,
  (forall x, In x xs -> positiveFinite x = true) ->
  comparable (Prim2SF lowest) = true ->
  (minFrom lowest xs = lowest \/ In (minFrom lowest xs) xs)
  /\ PrimFloat.leb (minFrom lowest xs) lowest = true
  /\ (forall x, In x xs -> PrimFloat.leb (minFrom lowest xs) x = true).
Proof.
  induction xs as [|number rest IH]; intros lowest Hpos Hlow; cbn [minFrom].
  - split; [left; reflexivity|]. split; [|intros x []].
    rewrite leb_spec. apply SFleb_refl, Hlow.
  - pose proof (Hpos number (or_introl eq_refl)) as Hnumber.
    rewrite (positiveFinite_not_nan number Hnumber).
    assert (Hnz : isNegZero number = false).
    { unfold isNegZero. rewrite (positiveFinite_not_zero number Hnumber). reflexivity. }
    rewrite Hnz. cbn [andb].
    assert (Hrest : forall x, In x rest -> positiveFinite x = true).
    { intros x Hx. apply Hpos. right. exact Hx. }
    pose proof (positiveFinite_comparable number Hnumber) as Hcn.
    destruct (PrimFloat.ltb number lowest) eqn:Hlt; rewrite ltb_spec in Hlt.
    + destruct (IH number Hrest Hcn) as (Hin & Hle & Hall).
      set (r := minFrom number rest) in *. clearbody r.
      assert (Hcr : comparable (Prim2SF r) = true).
      { destruct Hin as [->|Hin]; [exact Hcn|].
        apply positiveFinite_comparable, Hrest, Hin. }
      rewrite leb_spec in Hle.
      split; [right; destruct Hin as [->|Hin]; [left; reflexivity|right; exact Hin]|].
      split.
      * rewrite leb_spec.
        apply (SFleb_trans _ (Prim2SF number)); auto using SFltb_SFleb.
      * intros x [<-|Hx]; [rewrite leb_spec; exact Hle|apply Hall, Hx].
    + destruct (IH lowest Hrest Hlow) as (Hin & Hle & Hall).
      set (r := minFrom lowest rest) in *. clearbody r.
      assert (Hcr : comparable (Prim2SF r) = true).
      { destruct Hin as [->|Hin]; [exact Hlow|].
        apply positiveFinite_comparable, Hrest, Hin. }
      rewrite leb_spec in Hle.
      split; [destruct Hin as [Hin|Hin]; [left; exact Hin|right; right; exact Hin]|].
      split; [rewrite leb_spec; exact Hle|].
      intros x [<-|Hx]; [|apply Hall, Hx].
      rewrite leb_spec.
      apply (SFleb_trans _ (Prim2SF lowest)); auto using SFleb_total.
Qed.

Lemma maxFrom_greatest (xs : list float) : forall highest,
  (forall x, In x xs -> positiveFinite x = true) ->
  comparable (Prim2SF highest) = true ->
  (maxFrom highest xs = highest \/ In (maxFrom highest xs) xs)
  /\ PrimFloat.leb highest (maxFrom highest xs) = true
  /\ (forall x, In x xs -> PrimFloat.leb x (maxFrom highest xs) = true).
Proof.
  induction xs as [|number rest IH]; intros highest Hpos Hhigh; cbn [maxFrom].
  - split; [left; reflexivity|]. split; [|intros x []].
    rewrite leb_spec. apply SFleb_refl, Hhigh.
  - pose proof (Hpos number (or_introl eq_refl)) as Hnumber.
    rewrite (positiveFinite_not_nan number Hnumber).
    assert (Hnz : isPosZero number = false).
    { unfold isPosZero. rewrite (positiveFinite_not_zero number Hnumber). reflexivity. }
    rewrite Hnz. cbn [andb].
    assert (Hrest : forall x, In x rest -> positiveFinite x = true).
    { intros x Hx. apply Hpos. right. exact Hx. }
    pose proof (positiveFinite_comparable number Hnumber) as Hcn.
    destruct (PrimFloat.ltb highest number) eqn:Hlt; rewrite ltb_spec in Hlt.
    + destruct (IH number Hrest Hcn) as (Hin & Hle & Hall).
      set (r := maxFrom number rest) in *. clearbody r.
      assert (Hcr : comparable (Prim2SF r) = true).
      { destruct Hin as [->|Hin]; [exact Hcn|].
        apply positiveFinite_comparable, Hrest, Hin. }
      rewrite leb_spec in Hle.
      split; [right; destruct Hin as [->|Hin]; [left; reflexivity|right; exact Hin]|].
      split.
      * rewrite leb_spec.
        apply (SFleb_trans _ (Prim2SF number)); auto using SFltb_SFleb.
      * intros x [<-|Hx]; [rewrite leb_spec; exact Hle|apply Hall, Hx].
    + destruct (IH highest Hrest Hhigh) as (Hin & Hle & Hall).
      set (r := maxFrom highest rest) in *. clearbody r.
      assert (Hcr : comparable (Prim2SF r) = true).
      { destruct Hin as [->|Hin]; [exact Hhigh|].
        apply positiveFinite_comparable, Hrest, Hin. }
      rewrite leb_spec in Hle.
      split; [destruct Hin as [Hin|Hin]; [left; exact Hin|right; right; exact Hin]|].
      split; [rewrite leb_spec; exact Hle|].
      intros x [<-|Hx]; [|apply Hall, Hx].
      rewrite leb_spec.
      apply (SFleb_trans _ (Prim2SF highest)); auto using SFleb_total.
Qed.

Lemma mathMin_least (xs : list float) :
  xs <> [] -> (forall x, In x xs -> positiveFinite x = true) ->
  In (mathMin xs) xs /\ forall x, In x xs -> PrimFloat.leb (mathMin xs) x = true.
Proof.
  intros Hne Hpos. unfold mathMin.
  destruct (minFrom_least xs infinity Hpos eq_refl) as (Hin & _ & Hall).
  split; [|exact Hall].
  destruct Hin as [Hinf|Hin]; [|exact Hin]. exfalso.
  destruct xs as [|x xs]; [contradiction|].
  pose proof (Hall x (or_introl eq_refl)) as Hle. rewrite Hinf, leb_spec in Hle.
  pose proof (Hpos x (or_introl eq_refl)) as Hx. unfold positiveFinite in Hx.
  destruct (Prim2SF x) as [| | |[] ? ?]; try discriminate.
Qed.

Lemma mathMax_greatest (xs : list float) :
  xs <> [] -> (forall x, In x xs -> positiveFinite x = true) ->
  In (mathMax xs) xs /\ forall x, In x xs -> PrimFloat.leb x (mathMax xs) = true.
Proof.
  intros Hne Hpos. unfold mathMax.
  destruct (maxFrom_greatest xs neg_infinity Hpos eq_refl) as (Hin & _ & Hall).
  split; [|exact Hall].
  destruct Hin as [Hinf|Hin]; [|exact Hin]. exfalso.
  destruct xs as [|x xs]; [contradiction|].
  pose proof (Hall x (or_introl eq_refl)) as Hle. rewrite Hinf, leb_spec in Hle.
  pose proof (Hpos x (or_introl eq_refl)) as Hx. unfold positiveFinite in Hx.
  destruct (Prim2SF x) as [| | |[] ? ?]; try discriminate.
Qed.

(** X9.  For a non-empty table whose areas [validateArea] accepts,
    [regressionLine] gives two points: the model's line, as [predictPrice]
    evaluates it, at the area of a row that no row's area is below, and at
    the area of a row that no row's area is above. *)
Theorem regressionLine_spans (fitted : RegressionResult float)
        (rows : list (DataPoint float)) :
  rows <> [] ->
  (forall d, In d rows -> validateArea (area d) = None) ->
  exists lo hi,
    In lo rows /\ In hi rows
    /\ regressionLine (Some fitted) rows
       = [ {| lineArea := area lo;
              linePrice := predictPrice (area lo) (m fitted) (b fitted) |};
           {| lineArea := area hi;
              linePrice := predictPrice (area hi) (m fitted) (b fitted) |} ]
    /\ forall d, In d rows ->
         PrimFloat.leb (area lo) (area d) = true
         /\ PrimFloat.leb (area d) (area hi) = true.
Proof.
  intros Hne Hvalid.
  assert (Hxs : map area rows <> []).
  { destruct rows; [contradiction|discriminate]. }
  assert (Hpos : forall x, In x (map area rows) -> positiveFinite x = true).
  { intros x Hx. apply in_map_iff in Hx as (d & <- & Hd).
    apply validateArea_positive, Hvalid, Hd. }
  destruct (mathMin_least _ Hxs Hpos) as [Hmin Hleast].
  destruct (mathMax_greatest _ Hxs Hpos) as [Hmax Hgreatest].
  apply in_map_iff in Hmin as (lo & Hlo & Hinlo).
  apply in_map_iff in Hmax as (hi & Hhi & Hinhi).
  exists lo, hi. split; [exact Hinlo|]. split; [exact Hinhi|]. split.
  - unfold regressionLine. destruct rows; [contradiction|].
    cbn [List.length Nat.eqb]. rewrite Hlo, Hhi. reflexivity.
  - intros d Hd. rewrite Hlo, Hhi. split.
    + apply Hleast, in_map, Hd.
    + apply Hgreatest, in_map, Hd.
Qed.

Lemma named_valid (d : DataPoint float) :
  In d Samples.named ->
  id d <> "" /\ validateArea (area d) = None /\ validatePrice (price d) = None.
Proof.
  intros [<-|[<-|[<-|[]]]]; (split; [discriminate|split; vm_compute; reflexivity]).
Qed.

Lemma regressionLine_spans_witness :
  Samples.named <> []
  /\ (forall d, In d Samples.named -> validateArea (area d) = None)
  /\ exists lo hi,
      In lo Samples.named /\ In hi Samples.named
      /\ regressionLine (Some Samples.housesFit) Samples.named
         = [ {| lineArea := area lo;
                linePrice := predictPrice (area lo) (m Samples.housesFit)
                                          (b Samples.housesFit) |};
             {| lineArea := area hi;
                linePrice := predictPrice (area hi) (m Samples.housesFit)
                                          (b Samples.housesFit) |} ]
      /\ forall d, In d Samples.named ->
           PrimFloat.leb (area lo) (area d) = true
           /\ PrimFloat.leb (area d) (area hi) = true.
Proof.
  assert (Hne : Samples.named <> []) by discriminate.
  assert (Hvalid : forall d, In d Samples.named -> validateArea (area d) = None)
    by (intros d Hd; apply (named_valid d Hd)).
  split; [exact Hne|]. split; [exact Hvalid|].
  exact (regressionLine_spans Samples.housesFit Samples.named Hne Hvalid).
Defined.

(** *** The table of observations *)

Lemma NoDup_map_filter {A B : Type} (f : A -> B) (keep : A -> bool) (l : list A) :
  NoDup (map f l) -> NoDup (map f (filter keep l)).
Proof.
  induction l as [|x l IH]; cbn; intros Hnd; [constructor|].
  inversion Hnd as [|? ? Hnot Hrest]; subst.
  destruct (keep x); [|apply IH, Hrest].
  cbn. constructor; [|apply IH, Hrest].
  intros Hin. apply Hnot. apply in_map_iff in Hin as (y & Hy & Hin).
  apply filter_In in Hin as [Hin _]. apply in_map_iff. exists y. split; assumption.
Qed.

Lemma filter_other_ids (l : list (DataPoint float)) (i : string) :
  ~ In i (map id l) -> filter (fun d => negb (id d =? i)%string) l = l.
Proof.
  induction l as [|x l IH]; cbn; intros Hnot; [reflexivity|].
  destruct (String.eqb_spec (id x) i) as [E|_]; [exfalso; auto|].
  cbn. rewrite IH; [reflexivity|]. intros Hin. apply Hnot. right. exact Hin.
Qed.

Lemma NoDup_split_ids (l1 l2 : list (DataPoint float)) (d : DataPoint float) :
  NoDup (map id (l1 ++ d :: l2)) ->
  ~ In (id d) (map id l1) /\ ~ In (id d) (map id l2).
Proof.
  rewrite map_app. cbn [map]. intros Hnd.
  apply NoDup_remove_2 in Hnd. rewrite in_app_iff in Hnd. tauto.
Qed.

Section OnPage.
Variable toNumber : text -> float.
Variable toText : float -> text.
Variable rangeErrorMessage : string.

(** X10.  A field that holds nothing but white space and commas (the empty
    field included) is read by [parseNumber] as NaN, whatever [Number] would
    make of it, and both validators then answer that the value is
    required. *)
Theorem blank_input_required (v : text) :
  blank v ->
  PrimFloat.is_nan (parseNumber toNumber v) = true
  /\ validateArea (parseNumber toNumber v) = Some "Area is required."
  /\ validatePrice (parseNumber toNumber v) = Some "Price is required.".
Proof.
  intros Hblank. unfold parseNumber.
  rewrite (trim_whitespace _ (removeCommas_blank v Hblank)).
  repeat split; vm_compute; reflexivity.
Qed.

(** X11.  [parseNumber] ignores a comma wherever it stands: a text with a
    comma in it is read as the text without that comma. *)
Theorem comma_ignored (s1 s2 : text) :
  parseNumber toNumber (s1 ++ 44%N :: s2)%list
  = parseNumber toNumber (s1 ++ s2)%list.
Proof. unfold parseNumber. rewrite removeCommas_comma. reflexivity. Qed.

(** X12.  [parseNumber] ignores white space and commas before and after
    the text. *)
Theorem padding_ignored (l s r : text) :
  blank l -> blank r ->
  parseNumber toNumber (l ++ s ++ r)%list = parseNumber toNumber s.
Proof.
  intros Hl Hr. unfold parseNumber, removeCommas.
  rewrite !filter_app.
  rewrite (trim_padding _ _ _ (removeCommas_blank l Hl) (removeCommas_blank r Hr)).
  reflexivity.
Qed.

Lemma map_id_saved (e : string) (a p : float) (l : list (DataPoint float)) :
  map id (map (saved e a p) l) = map id l.
Proof.
  rewrite map_map. apply map_ext. intros d. unfold saved.
  destruct (id d =? e)%string; reflexivity.
Qed.

Lemma map_saved_other_ids (e : string) (a p : float) (l : list (DataPoint float)) :
  ~ In e (map id l) -> map (saved e a p) l = l.
Proof.
  induction l as [|x l IH]; cbn; intros Hnot; [reflexivity|].
  unfold saved at 1.
  destruct (String.eqb_spec (id x) e) as [E|_]; [exfalso; auto|].
  rewrite IH; [reflexivity|]. intros Hin. apply Hnot. right. exact Hin.
Qed.

(** *** Invariants of the page *)

Lemma tidy_submit (newId : string) (st : State) :
  tidy st -> possible (SubmitTraining newId) st ->
  tidy (onSubmitTraining toNumber newId st).
Proof.
  intros [(Hsize & Hnd & Hall) Hedit] [Hnew Hfresh].
  unfold onSubmitTraining. cbv zeta.
  set (a := parseNumber toNumber _). set (p := parseNumber toNumber _).
  destruct (truthy (validateArea a) || truthy (validatePrice p)) eqn:Herr.
  { split; [split; [|split]|]; assumption. }
  apply orb_false_iff in Herr as [Ha Hp].
  apply validateArea_truthy in Ha. apply validatePrice_truthy in Hp.
  cbn [data editId setFormError setAreaError setPriceError].
  destruct (editId st) as [e|] eqn:He.
  - rewrite andb_false_r.
    pose proof (Hedit e eq_refl) as Hne.
    assert (Ht : truthy (Some e) = true).
    { cbn. destruct (String.eqb_spec e ""); [contradiction|reflexivity]. }
    rewrite Ht. split; [|cbn; intros e0 He0; discriminate].
    cbn [data dataChanged setPredictError setTrainError setPredictedPrice setModel
         setPriceError setAreaError setPrice setArea setEditId setData].
    split; [rewrite length_map; exact Hsize|].
    split; [rewrite map_id_saved; exact Hnd|].
    intros d Hd. apply in_map_iff in Hd as (d0 & <- & Hd0).
    destruct (Hall d0 Hd0) as (Hid & Hva & Hvp).
    unfold saved. destruct (id d0 =? e)%string; cbn; auto.
  - rewrite andb_true_r.
    destruct (Nat.ltb_spec (List.length (data st)) 50) as [Hlt|Hge]; cbn [negb].
    + split; [|cbn; rewrite He; intros e0 He0; discriminate].
      cbn [data dataChanged setPredictError setTrainError setPredictedPrice setModel
           setPriceError setAreaError setPrice setArea setEditId setData].
      split; [rewrite length_app; cbn; lia|].
      split.
      * rewrite map_app. cbn. apply NoDup_app.
        -- exact Hnd.
        -- constructor; [intros []|constructor].
        -- intros x Hx [<-|[]]. exact (Hfresh Hx).
      * intros d Hd. apply in_app_iff in Hd as [Hd|[<-|[]]]; [apply Hall, Hd|].
        cbn. auto.
    + split; [split; [|split]|]; cbn; try assumption.
      rewrite He. intros e0 He0. discriminate.
Qed.

(** Every event the page can produce keeps the table tidy. *)
Lemma tidy_handle (ev : Event) (st : State) :
  tidy st -> possible ev st ->
  tidy (handle toNumber toText rangeErrorMessage ev st).
Proof.
  intros IH Hev.
  destruct ev; cbn [handle];
    try (destruct IH as [Hwf Hedit]; split; [exact Hwf|exact Hedit]).
  - apply tidy_submit; assumption.
  - destruct IH as [Hwf Hedit]. split; [exact Hwf|].
    cbn. intros e He. injection He as <-.
    destruct Hwf as (_ & _ & Hall). apply (Hall d Hev).
  - destruct IH as [(Hsize & Hnd & Hall) Hedit]. split; [|exact Hedit].
    cbn [data remove dataChanged setPredictError setTrainError setPredictedPrice
         setModel setData].
    split; [|split].
    + pose proof (filter_length_le (fun d => negb (id d =? i)%string) (data st)).
      lia.
    + apply NoDup_map_filter, Hnd.
    + intros d Hd. apply filter_In in Hd as [Hd _]. apply Hall, Hd.
  - destruct IH as [Hwf Hedit]. split; [exact Hwf|cbn; discriminate].
  - destruct IH as [Hwf Hedit]. unfold train. cbv zeta.
    destruct (calculateRegression _); split; assumption.
  - destruct IH as [Hwf Hedit]. unfold onPredict. cbv zeta.
    cbn [model setPredictError].
    destruct (model st); [|split; assumption].
    destruct (truthy _); split; assumption.
  - destruct IH as [_ Hedit]. split; [exact Hev|exact Hedit].
Qed.

Lemma tidy_initial : tidy initial.
Proof.
  split; [split; [cbn; lia|split; [constructor|intros d []]]|cbn; discriminate].
Qed.

Lemma tidy_reachable (st : State) :
  Reachable toNumber toText rangeErrorMessage st -> tidy st.
Proof.
  induction 1 as [|st ev _ IH Hev]; [exact tidy_initial|].
  apply tidy_handle; assumption.
Qed.

(** Every event keeps the model and the prediction up to date. *)
Lemma upToDate_handle (ev : Event) (st : State) :
  upToDate st -> upToDate (handle toNumber toText rangeErrorMessage ev st).
Proof.
  assert (Hreset : forall st0, upToDate (dataChanged st0)).
  { intros st0. split; cbn; intros ? ?; discriminate. }
  intros IH.
  destruct ev; cbn [handle]; try exact IH; try apply Hreset.
  - unfold onSubmitTraining. cbv zeta.
    destruct (_ || _); [exact IH|].
    destruct (_ && _); [exact IH|]. apply Hreset.
  - destruct IH as [Hmodel Hprice]. unfold train. cbv zeta.
    cbn [data setTrainError].
    destruct (calculateRegression (data st)) as [r|err] eqn:Hfit.
    + split; cbn.
      * intros r0 Hr0. injection Hr0 as <-. first [exact Hfit|reflexivity].
      * intros y Hy. destruct (Hprice y Hy) as (r0 & a & Hr0 & Ha & Hyr).
        pose proof (Hmodel r0 Hr0) as Hfit0.
        assert (r = r0) as <- by congruence. exists r, a. auto.
    + split; cbn.
      * intros r0 Hr0. discriminate.
      * intros y Hy. destruct (Hprice y Hy) as (r0 & a & Hr0 & _).
        pose proof (Hmodel r0 Hr0) as Hfit0. congruence.
  - destruct IH as [Hmodel Hprice]. unfold onPredict. cbv zeta.
    cbn [model setPredictError].
    destruct (model st) as [fitted|] eqn:Hfitted.
    + destruct (truthy _) eqn:Herr.
      * split; cbn; [rewrite Hfitted; exact Hmodel|intros ? ?; discriminate].
      * apply validateArea_truthy in Herr.
        split; cbn; [rewrite Hfitted; exact Hmodel|].
        intros y Hy. injection Hy as <-. rewrite Hfitted.
        eexists _, _. split; [reflexivity|]. split; [exact Herr|reflexivity].
    + split; cbn; [rewrite Hfitted; intros ? ?; discriminate|intros ? ?; discriminate].
Qed.

Lemma upToDate_initial : upToDate initial.
Proof. split; cbn; intros ? ?; discriminate. Qed.

Lemma upToDate_reachable (st : State) :
  Reachable toNumber toText rangeErrorMessage st -> upToDate st.
Proof.
  induction 1 as [|st ev _ IH _]; [exact upToDate_initial|].
  apply upToDate_handle, IH.
Qed.

(** X13.  Whatever the user does, the table holds at most 50 observations,
    their identifiers are distinct and not empty, and every area and price
    in it is accepted by its validator; an edit in progress has a non-empty
    identifier.  This supposes that [nanoid()] returns an unused non-empty
    identifier and that what is read from local storage is such a table. *)
Theorem reachable_tidy (st : State) :
  Reachable toNumber toText rangeErrorMessage st -> tidy st.
Proof.
  intros Hreach. induction Hreach as [|st ev _ IH Hev].
  - exact tidy_initial.
  - exact (tidy_handle ev st IH Hev).
Qed.

(** X14.  Whatever the user does, a model on the page is what
    [calculateRegression] returns for the table on the page, and a predicted
    price on the page is [predictPrice] of that model at an area that
    [validateArea] accepts: neither survives a change of the table. *)
Theorem reachable_upToDate (st : State) :
  Reachable toNumber toText rangeErrorMessage st -> upToDate st.
Proof.
  intros Hreach. induction Hreach as [|st ev _ IH _].
  - exact upToDate_initial.
  - exact (upToDate_handle ev st IH).
Qed.

(** X15.  Delete removes the row it belongs to and no other, keeps the
    order of the rest, and discards the model and the prediction. *)
Theorem remove_one (st : State) (l1 l2 : list (DataPoint float))
        (d : DataPoint float) :
  Reachable toNumber toText rangeErrorMessage st ->
  data st = (l1 ++ d :: l2)%list ->
  data (handle toNumber toText rangeErrorMessage (Remove (id d)) st) = (l1 ++ l2)%list
  /\ model (handle toNumber toText rangeErrorMessage (Remove (id d)) st) = None
  /\ predictedPrice (handle toNumber toText rangeErrorMessage (Remove (id d)) st) = None.
Proof.
  intros Hreach Hdata.
  destruct (tidy_reachable st Hreach) as [(_ & Hnd & _) _].
  rewrite Hdata in Hnd. destruct (NoDup_split_ids l1 l2 d Hnd) as [H1 H2].
  cbn. rewrite Hdata, filter_app. cbn [filter].
  rewrite String.eqb_refl. cbn [negb].
  rewrite (filter_other_ids l1 (id d) H1), (filter_other_ids l2 (id d) H2).
  auto.
Qed.

(** X16.  Saving an edit with valid input replaces the area and the price
    of the edited row and nothing else: the other rows, the order and the
    identifiers stay, also when the table is full; the edit is over and the
    model is discarded. *)
Theorem save_one (st : State) (newId e : string)
        (l1 l2 : list (DataPoint float)) (d : DataPoint float) :
  Reachable toNumber toText rangeErrorMessage st ->
  editId st = Some e ->
  data st = (l1 ++ d :: l2)%list ->
  id d = e ->
  validateArea (parseNumber toNumber (areaInput st)) = None ->
  validatePrice (parseNumber toNumber (priceInput st)) = None ->
  data (handle toNumber toText rangeErrorMessage (SubmitTraining newId) st)
  = (l1 ++ {| id := e;
              area := parseNumber toNumber (areaInput st);
              price := parseNumber toNumber (priceInput st) |} :: l2)%list
  /\ editId (handle toNumber toText rangeErrorMessage (SubmitTraining newId) st) = None
  /\ model (handle toNumber toText rangeErrorMessage (SubmitTraining newId) st) = None.
Proof.
  intros Hreach He Hdata Hid Ha Hp.
  destruct (tidy_reachable st Hreach) as [(_ & Hnd & _) Hedit].
  pose proof (Hedit e He) as Hne.
  rewrite Hdata in Hnd. destruct (NoDup_split_ids l1 l2 d Hnd) as [H1 H2].
  cbn [handle]. unfold onSubmitTraining. cbv zeta.
  cbn [areaInput priceInput data editId setFormError setAreaError setPriceError].
  rewrite Ha, Hp. cbn [truthy orb]. rewrite He, andb_false_r.
  destruct (String.eqb_spec e "") as [|_]; [contradiction|]. cbn [negb].
  cbn. rewrite Hdata, map_app. cbn [map]. rewrite <- Hid in *.
  rewrite (map_saved_other_ids _ _ _ l1 H1), (map_saved_other_ids _ _ _ l2 H2).
  unfold saved. rewrite String.eqb_refl. auto.
Qed.

(** X17.  With valid input and no edit in progress, Add puts one row, with
    the identifier from [nanoid()], at the end of a table of fewer than 50
    rows; a table of 50 rows or more stays as it is and the form reports
    "Maximum of 50 entries reached.". *)
Theorem add_appends (st : State) (newId : string) :
  editId st = None ->
  validateArea (parseNumber toNumber (areaInput st)) = None ->
  validatePrice (parseNumber toNumber (priceInput st)) = None ->
  data (handle toNumber toText rangeErrorMessage (SubmitTraining newId) st)
  = (if (List.length (data st) <? 50)%nat
     then (data st ++ [{| id := newId;
                          area := parseNumber toNumber (areaInput st);
                          price := parseNumber toNumber (priceInput st) |}])%list
     else data st)
  /\ formError (handle toNumber toText rangeErrorMessage (SubmitTraining newId) st)
     = (if (List.length (data st) <? 50)%nat then ""
        else "Maximum of 50 entries reached.").
Proof.
  intros He Ha Hp.
  cbn [handle]. unfold onSubmitTraining. cbv zeta.
  cbn [areaInput priceInput data editId setFormError setAreaError setPriceError].
  rewrite Ha, Hp. cbn [truthy orb]. rewrite He, andb_true_r.
  destruct (List.length (data st) <? 50)%nat; split; reflexivity.
Qed.

(** X18.  A submission that a validator refuses changes neither the table
    nor the model nor the prediction nor the edit in progress; it shows the
    verdicts of the two validators. *)
Theorem rejected_submission (st : State) (newId : string) :
  validateArea (parseNumber toNumber (areaInput st)) <> None
  \/ validatePrice (parseNumber toNumber (priceInput st)) <> None ->
  let st' := handle toNumber toText rangeErrorMessage (SubmitTraining newId) st in
  data st' = data st /\ model st' = model st /\ editId st' = editId st
  /\ predictedPrice st' = predictedPrice st
  /\ areaError st' = validateArea (parseNumber toNumber (areaInput st))
  /\ priceError st' = validatePrice (parseNumber toNumber (priceInput st)).
Proof.
  intros Hbad. cbn [handle]. unfold onSubmitTraining. cbv zeta.
  cbn [areaInput priceInput data editId setFormError setAreaError setPriceError].
  assert (Htruthy : truthy (validateArea (parseNumber toNumber (areaInput st)))
                    || truthy (validatePrice (parseNumber toNumber (priceInput st)))
                    = true).
  { apply orb_true_iff. destruct Hbad as [Hbad|Hbad]; [left|right].
    - destruct (validateArea _) as [s|] eqn:E; [|contradiction].
      apply (validateArea_message _ _ E).
    - destruct (validatePrice _) as [s|] eqn:E; [|contradiction].
      apply (validatePrice_message _ _ E). }
  rewrite Htruthy. cbn. auto 10.
Qed.

(** X19.  Train has two outcomes.  With fewer than two rows it shows no
    model and the error "Insufficient data points"; with two rows or more it
    shows the model that [calculateRegression] returns for the table and no
    error: no other exception reaches the page. *)
Theorem train_outcome (st : State) :
  let st' := handle toNumber toText rangeErrorMessage Train st in
  ((List.length (data st) < 2)%nat
   /\ model st' = None /\ trainError st' = "Insufficient data points")
  \/ ((2 <= List.length (data st))%nat
      /\ trainError st' = ""
      /\ exists r, model st' = Some r
                   /\ calculateRegression (data st) = Return r).
Proof.
  cbn [handle]. unfold train. cbv zeta. cbn [data setTrainError].
  destruct (Nat.lt_ge_cases (List.length (data st)) 2) as [Hshort|Hlen].
  - left. rewrite (calculateRegression_short (data st) Hshort). cbn. auto.
  - right. rewrite (calculateRegression_cases (data st) Hlen).
    destruct (strictEq (olsDenominator (data st)) zero); cbn; eauto.
Qed.

(** X20.  Delete does not end an edit.  When the row being edited is no
    longer in the table, Save with valid input stores nothing: the table
    stays as it is, the typed values are cleared, the edit is over and the
    model is discarded. *)
Theorem save_after_delete (st : State) (newId e : string) :
  editId st = Some e ->
  e <> "" ->
  ~ In e (map id (data st)) ->
  validateArea (parseNumber toNumber (areaInput st)) = None ->
  validatePrice (parseNumber toNumber (priceInput st)) = None ->
  let st' := handle toNumber toText rangeErrorMessage (SubmitTraining newId) st in
  data st' = data st /\ editId st' = None
  /\ areaInput st' = [] /\ priceInput st' = [] /\ model st' = None.
Proof.
  intros He Hne Hgone Ha Hp.
  cbn [handle]. unfold onSubmitTraining. cbv zeta.
  cbn [areaInput priceInput data editId setFormError setAreaError setPriceError].
  rewrite Ha, Hp. cbn [truthy orb]. rewrite He, andb_false_r.
  destruct (String.eqb_spec e "") as [|_]; [contradiction|]. cbn [negb].
  cbn. rewrite (map_saved_other_ids _ _ _ (data st) Hgone). auto.
Qed.

(** X21.  Whenever the page shows a model, the table is not empty and the
    line of the chart runs between two of its rows: from an area that no
    row's area is below to an area that no row's area is above, each with
    the price that [predictPrice] gives it. *)
Theorem chart_line_on_page (st : State) (fitted : RegressionResult float) :
  Reachable toNumber toText rangeErrorMessage st ->
  model st = Some fitted ->
  exists lo hi,
    In lo (data st) /\ In hi (data st)
    /\ regressionLine (model st) (data st)
       = [ {| lineArea := area lo;
              linePrice := predictPrice (area lo) (m fitted) (b fitted) |};
           {| lineArea := area hi;
              linePrice := predictPrice (area hi) (m fitted) (b fitted) |} ]
    /\ forall d, In d (data st) ->
         PrimFloat.leb (area lo) (area d) = true
         /\ PrimFloat.leb (area d) (area hi) = true.
Proof.
  intros Hreach Hmodel.
  destruct (tidy_reachable st Hreach) as [(_ & _ & Hall) _].
  destruct (upToDate_reachable st Hreach) as [Hfit _].
  pose proof (Hfit fitted Hmodel) as Hr.
  assert (Hne : data st <> []).
  { intros E. rewrite E in Hr.
    rewrite (calculateRegression_short (@nil (DataPoint float))) in Hr
      by (cbn; lia).
    discriminate. }
  assert (Hxs : map area (data st) <> []).
  { destruct (data st); [contradiction|discriminate]. }
  assert (Hpos : forall x, In x (map area (data st)) -> positiveFinite x = true).
  { intros x Hx. apply in_map_iff in Hx as (d & <- & Hd).
    apply validateArea_positive, (Hall d Hd). }
  destruct (mathMin_least _ Hxs Hpos) as [Hmin Hleast].
  destruct (mathMax_greatest _ Hxs Hpos) as [Hmax Hgreatest].
  apply in_map_iff in Hmin as (lo & Hlo & Hinlo).
  apply in_map_iff in Hmax as (hi & Hhi & Hinhi).
  exists lo, hi. split; [exact Hinlo|]. split; [exact Hinhi|]. split.
  - rewrite Hmodel. unfold regressionLine.
    destruct (data st); [contradiction|].
    cbn [List.length Nat.eqb]. rewrite Hlo, Hhi. reflexivity.
  - intros d Hd. rewrite Hlo, Hhi. split.
    + apply Hleast, in_map, Hd.
    + apply Hgreatest, in_map, Hd.
Qed.

Lemma validateArea_finite (a : float) :
  validateArea a = None -> PrimFloat.is_finite a = true.
Proof.
  unfold validateArea. destruct (PrimFloat.is_finite a); [reflexivity|discriminate].
Qed.

(** X22.  The point of the prediction on the chart is not refreshed.
    Right after Predict with an accepted area it is on the model's line;
    when the text of the field is changed afterwards, the point moves to the
    new area and keeps the price predicted for the old one. *)
Theorem prediction_point_kept (st : State) (fitted : RegressionResult float)
        (v : text) :
  model st = Some fitted ->
  validateArea (parseNumber toNumber (predictArea st)) = None ->
  PrimFloat.is_finite (parseNumber toNumber v) = true ->
  let a := parseNumber toNumber (predictArea st) in
  let y := predictPrice a (m fitted) (b fitted) in
  let st1 := handle toNumber toText rangeErrorMessage Predict st in
  let st2 := handle toNumber toText rangeErrorMessage (ChangePredictArea v) st1 in
  predictionPoint toNumber st1 = [ {| lineArea := a; linePrice := y |} ]
  /\ predictionPoint toNumber st2
     = [ {| lineArea := parseNumber toNumber v; linePrice := y |} ].
Proof.
  intros Hmodel Hvalid Hfinite. cbv zeta.
  pose proof (validateArea_finite _ Hvalid) as Hfin.
  cbn [handle]. unfold onPredict. cbv zeta. cbn [model predictArea setPredictError].
  rewrite Hmodel, Hvalid. cbn [truthy].
  unfold predictionPoint. cbv zeta.
  cbn [model predictArea predictedPrice setPredictedPrice setPredictError
       setPredictArea].
  rewrite Hmodel, Hfin, Hfinite. split; reflexivity.
Qed.

End OnPage.

(** *** The sample pages *)

Import PageSamples.

Lemma named_wellFormed : wellFormed Samples.named.
Proof.
  split; [cbn; lia|]. split; [|exact named_valid].
  cbn. repeat constructor; cbn; intuition discriminate.
Qed.

Lemma loaded_reachable : Reachable digitsNumber wholeText rangeMessage loaded.
Proof.
  unfold loaded, after. cbn [fold_left].
  apply reach_step; [apply reach_initial|exact named_wellFormed].
Qed.

Lemma trained_reachable : Reachable digitsNumber wholeText rangeMessage trained.
Proof.
  unfold trained, after. cbn [fold_left].
  apply reach_step; [exact loaded_reachable|exact I].
Qed.

Lemma editing_reachable : Reachable digitsNumber wholeText rangeMessage editing.
Proof.
  unfold editing, after. cbn [fold_left].
  apply reach_step; [|exact I]. apply reach_step; [|exact I].
  apply reach_step; [exact loaded_reachable|].
  right. left. reflexivity.
Qed.

Lemma blank_spaces : blank [32; 44; 9]%N.
Proof.
  intros c [<-|[<-|[<-|[]]]]; [left|right|left]; reflexivity.
Qed.

Lemma blank_input_required_witness :
  blank [32; 44; 9]%N
  /\ PrimFloat.is_nan (parseNumber digitsNumber [32; 44; 9]%N) = true
  /\ validateArea (parseNumber digitsNumber [32; 44; 9]%N) = Some "Area is required."
  /\ validatePrice (parseNumber digitsNumber [32; 44; 9]%N)
     = Some "Price is required.".
Proof.
  split; [exact blank_spaces|].
  exact (blank_input_required digitsNumber [32; 44; 9]%N blank_spaces).
Defined.

Lemma padding_ignored_witness :
  blank [32; 44; 9]%N /\ blank [32; 44; 9]%N
  /\ parseNumber digitsNumber ([32; 44; 9]%N ++ ofString "120" ++ [32; 44; 9]%N)%list
     = parseNumber digitsNumber (ofString "120").
Proof.
  split; [exact blank_spaces|]. split; [exact blank_spaces|].
  exact (padding_ignored digitsNumber [32; 44; 9]%N (ofString "120") [32; 44; 9]%N
                         blank_spaces blank_spaces).
Defined.

Lemma reachable_tidy_witness :
  Reachable digitsNumber wholeText rangeMessage editing /\ tidy editing.
Proof.
  split; [exact editing_reachable|].
  exact (reachable_tidy digitsNumber wholeText rangeMessage editing editing_reachable).
Defined.

Lemma reachable_upToDate_witness :
  Reachable digitsNumber wholeText rangeMessage trained /\ upToDate trained.
Proof.
  split; [exact trained_reachable|].
  exact (reachable_upToDate digitsNumber wholeText rangeMessage trained
                            trained_reachable).
Defined.

Lemma remove_one_witness :
  Reachable digitsNumber wholeText rangeMessage trained
  /\ data trained = ([rowA] ++ rowB :: [rowC])%list
  /\ data (handle digitsNumber wholeText rangeMessage (Remove (id rowB)) trained)
     = ([rowA] ++ [rowC])%list
  /\ model (handle digitsNumber wholeText rangeMessage (Remove (id rowB)) trained)
     = None
  /\ predictedPrice
       (handle digitsNumber wholeText rangeMessage (Remove (id rowB)) trained)
     = None.
Proof.
  assert (Hdata : data trained = ([rowA] ++ rowB :: [rowC])%list)
    by (vm_compute; reflexivity).
  split; [exact trained_reachable|]. split; [exact Hdata|].
  exact (remove_one digitsNumber wholeText rangeMessage trained [rowA] [rowC] rowB
                    trained_reachable Hdata).
Defined.

Lemma save_one_witness :
  Reachable digitsNumber wholeText rangeMessage editing
  /\ editId editing = Some "b"
  /\ data editing = ([rowA] ++ rowB :: [rowC])%list
  /\ id rowB = "b"
  /\ validateArea (parseNumber digitsNumber (areaInput editing)) = None
  /\ validatePrice (parseNumber digitsNumber (priceInput editing)) = None
  /\ data (handle digitsNumber wholeText rangeMessage (SubmitTraining "x") editing)
     = ([rowA] ++ {| id := "b";
                     area := parseNumber digitsNumber (areaInput editing);
                     price := parseNumber digitsNumber (priceInput editing) |}
               :: [rowC])%list
  /\ editId (handle digitsNumber wholeText rangeMessage (SubmitTraining "x") editing)
     = None
  /\ model (handle digitsNumber wholeText rangeMessage (SubmitTraining "x") editing)
     = None.
Proof.
  assert (He : editId editing = Some "b") by (vm_compute; reflexivity).
  assert (Hdata : data editing = ([rowA] ++ rowB :: [rowC])%list)
    by (vm_compute; reflexivity).
  assert (Hid : id rowB = "b") by reflexivity.
  assert (Ha : validateArea (parseNumber digitsNumber (areaInput editing)) = None)
    by (vm_compute; reflexivity).
  assert (Hp : validatePrice (parseNumber digitsNumber (priceInput editing)) = None)
    by (vm_compute; reflexivity).
  split; [exact editing_reachable|]. split; [exact He|]. split; [exact Hdata|].
  split; [exact Hid|]. split; [exact Ha|]. split; [exact Hp|].
  exact (save_one digitsNumber wholeText rangeMessage editing "x" "b" [rowA] [rowC]
                  rowB editing_reachable He Hdata Hid Ha Hp).
Defined.

Lemma add_appends_witness :
  editId typing = None
  /\ validateArea (parseNumber digitsNumber (areaInput typing)) = None
  /\ validatePrice (parseNumber digitsNumber (priceInput typing)) = None
  /\ data (handle digitsNumber wholeText rangeMessage (SubmitTraining "x") typing)
     = (if (List.length (data typing) <? 50)%nat
        then (data typing
              ++ [{| id := "x";
                     area := parseNumber digitsNumber (areaInput typing);
                     price := parseNumber digitsNumber (priceInput typing) |}])%list
        else data typing)
  /\ formError (handle digitsNumber wholeText rangeMessage (SubmitTraining "x") typing)
     = (if (List.length (data typing) <? 50)%nat then ""
        else "Maximum of 50 entries reached.").
Proof.
  assert (He : editId typing = None) by (vm_compute; reflexivity).
  assert (Ha : validateArea (parseNumber digitsNumber (areaInput typing)) = None)
    by (vm_compute; reflexivity).
  assert (Hp : validatePrice (parseNumber digitsNumber (priceInput typing)) = None)
    by (vm_compute; reflexivity).
  split; [exact He|]. split; [exact Ha|]. split; [exact Hp|].
  exact (add_appends digitsNumber wholeText rangeMessage typing "x" He Ha Hp).
Defined.

Lemma halfTyped_refused :
  validateArea (parseNumber digitsNumber (areaInput halfTyped)) <> None
  \/ validatePrice (parseNumber digitsNumber (priceInput halfTyped)) <> None.
Proof. left. vm_compute. discriminate. Qed.

Lemma rejected_submission_witness :
  (validateArea (parseNumber digitsNumber (areaInput halfTyped)) <> None
   \/ validatePrice (parseNumber digitsNumber (priceInput halfTyped)) <> None)
  /\ let st' := handle digitsNumber wholeText rangeMessage (SubmitTraining "x")
                       halfTyped in
     data st' = data halfTyped /\ model st' = model halfTyped
     /\ editId st' = editId halfTyped
     /\ predictedPrice st' = predictedPrice halfTyped
     /\ areaError st' = validateArea (parseNumber digitsNumber (areaInput halfTyped))
     /\ priceError st'
        = validatePrice (parseNumber digitsNumber (priceInput halfTyped)).
Proof.
  split; [exact halfTyped_refused|].
  exact (rejected_submission digitsNumber wholeText rangeMessage halfTyped "x"
                             halfTyped_refused).
Defined.

Lemma orphaned_gone : ~ In "b" (map id (data orphaned)).
Proof. vm_compute. intuition discriminate. Qed.

Lemma save_after_delete_witness :
  editId orphaned = Some "b"
  /\ "b" <> ""
  /\ ~ In "b" (map id (data orphaned))
  /\ validateArea (parseNumber digitsNumber (areaInput orphaned)) = None
  /\ validatePrice (parseNumber digitsNumber (priceInput orphaned)) = None
  /\ let st' := handle digitsNumber wholeText rangeMessage (SubmitTraining "x")
                       orphaned in
     data st' = data orphaned /\ editId st' = None
     /\ areaInput st' = [] /\ priceInput st' = [] /\ model st' = None.
Proof.
  assert (He : editId orphaned = Some "b") by (vm_compute; reflexivity).
  assert (Hne : "b" <> "") by discriminate.
  assert (Ha : validateArea (parseNumber digitsNumber (areaInput orphaned)) = None)
    by (vm_compute; reflexivity).
  assert (Hp : validatePrice (parseNumber digitsNumber (priceInput orphaned)) = None)
    by (vm_compute; reflexivity).
  split; [exact He|]. split; [exact Hne|]. split; [exact orphaned_gone|].
  split; [exact Ha|]. split; [exact Hp|].
  exact (save_after_delete digitsNumber wholeText rangeMessage orphaned "x" "b"
                           He Hne orphaned_gone Ha Hp).
Defined.

Lemma prediction_point_kept_witness :
  model asking = Some Samples.housesFit
  /\ validateArea (parseNumber digitsNumber (predictArea asking)) = None
  /\ PrimFloat.is_finite (parseNumber digitsNumber (ofString "200")) = true
  /\ let a := parseNumber digitsNumber (predictArea asking) in
     let y := predictPrice a (m Samples.housesFit) (b Samples.housesFit) in
     let st1 := handle digitsNumber wholeText rangeMessage Predict asking in
     let st2 := handle digitsNumber wholeText rangeMessage
                       (ChangePredictArea (ofString "200")) st1 in
     predictionPoint digitsNumber st1 = [ {| lineArea := a; linePrice := y |} ]
     /\ predictionPoint digitsNumber st2
        = [ {| lineArea := parseNumber digitsNumber (ofString "200");
               linePrice := y |} ].
Proof.
  assert (Hmodel : model asking = Some Samples.housesFit)
    by (vm_compute; reflexivity).
  assert (Hvalid : validateArea (parseNumber digitsNumber (predictArea asking)) = None)
    by (vm_compute; reflexivity).
  assert (Hfinite : PrimFloat.is_finite (parseNumber digitsNumber (ofString "200"))
                    = true)
    by (vm_compute; reflexivity).
  split; [exact Hmodel|]. split; [exact Hvalid|]. split; [exact Hfinite|].
  exact (prediction_point_kept digitsNumber wholeText rangeMessage asking
                               Samples.housesFit (ofString "200")
                               Hmodel Hvalid Hfinite).
Defined.

Lemma chart_line_on_page_witness :
  Reachable digitsNumber wholeText rangeMessage trained
  /\ model trained = Some Samples.housesFit
  /\ exists lo hi,
      In lo (data trained) /\ In hi (data trained)
      /\ regressionLine (model trained) (data trained)
         = [ {| lineArea := area lo;
                linePrice := predictPrice (area lo) (m Samples.housesFit)
                                          (b Samples.housesFit) |};
             {| lineArea := area hi;
                linePrice := predictPrice (area hi) (m Samples.housesFit)
                                          (b Samples.housesFit) |} ]
      /\ forall d, In d (data trained) ->
           PrimFloat.leb (area lo) (area d) = true
           /\ PrimFloat.leb (area d) (area hi) = true.
Proof.
  assert (Hmodel : model trained = Some Samples.housesFit)
    by (vm_compute; reflexivity).
  split; [exact trained_reachable|]. split; [exact Hmodel|].
  exact (chart_line_on_page digitsNumber wholeText rangeMessage trained
                            Samples.housesFit trained_reachable Hmodel).
Defined.

End PageFacts.
